(** * uk-grid-carbon-intensity: response decoding and parameter validation

    A shallow embedding of the Go package [carbonintensity] (the wrapper
    around the national grid carbon intensity API) and the properties of
    its response decoders and of the parameter checks its public
    operations make before they query the server.

    The embedding follows the current source of the package (the one with
    the flat [Intensity] and [Statistics] records that the example program
    and the README use).  An earlier snapshot of the same file nests the
    records and makes none of the checks on parameters, which it leaves
    to the server; its decoders read a body in the same way.  The
    collaborators the package calls but does not define are kept apart
    from it:

    - [encoding/json]: a response body is carried as its bytes together
      with the value the decoder reads from them ([Body]);
    - [time.Parse], [Time.Format], [Time.Date] and [http.Get] are
      variables of the section that holds the package; a reference
      implementation of each is given for the worked examples. *)

From Stdlib Require Import ZArith String Ascii List Bool Lia DecimalString.
From Stdlib Require Import Floats.SpecFloat.
Import ListNotations.

#[local] Set Warnings "-register-all".
Local Open Scope Z_scope.

(* ================================================================== *)
(** ** Go values *)

(** [int] and [int64] are 64-bit; the model keeps them in [Z] and writes
    the bounds out where a conversion can leave them. *)
Definition minInt64 : Z := - 2 ^ 63.
Definition maxInt64 : Z := 2 ^ 63 - 1.

(** [float64] is IEEE 754 binary64: 53 bits of precision, [emax = 1024],
    operations rounded to nearest even. *)
Definition float64 : Type := spec_float.

Definition float64_of_int (z : Z) : float64 := binary_normalize 53 1024 z 0 false.
Definition float64_add : float64 -> float64 -> float64 := SFadd 53 1024.
Definition float64_div : float64 -> float64 -> float64 := SFdiv 53 1024.

(** The conversion [int(f)] of a [float64] drops the fraction (it
    truncates towards zero).  When the truncated value does not fit the
    Go specification leaves the result to the implementation; the model
    takes what amd64 gives, the least [int64]. *)
Definition int_of_float64 (f : float64) : Z :=
  match f with
  | S754_zero _ => 0
  | S754_finite s m e =>
      let a := if 0 <=? e then Z.pos m * 2 ^ e else Z.pos m / 2 ^ (- e) in
      let r := if s then - a else a in
      if (minInt64 <=? r) && (r <=? maxInt64) then r else minInt64
  | S754_infinity _ | S754_nan => minInt64
  end.

(** [fmt]'s [%d], and [%0wd], which pads with zeros after the sign. *)
Definition fmt_d (z : Z) : string := NilZero.string_of_int (Z.to_int z).

Fixpoint zeros (n : nat) : string :=
  match n with
  | O => EmptyString
  | S n' => String "0" (zeros n')
  end.

Definition fmt_0d (width : nat) (z : Z) : string :=
  let digits := NilZero.string_of_uint (N.to_uint (Z.abs_N z)) in
  let sign := if z <? 0 then "-"%string else EmptyString in
  let used := (String.length sign + String.length digits)%nat in
  (sign ++ zeros (width - used) ++ digits)%string.

(* ================================================================== *)
(** ** Decoded JSON

    What [encoding/json] stores into an [interface{}]: [nil] for null,
    [bool], [float64] for every number, [string], [[]interface{}] and
    [map[string]interface{}].  A map is kept as the list of its bindings;
    [lookup] reads the first binding of a key, so a list stands for the
    map that holds, for each key, its first binding. *)

Inductive json : Type :=
| JNull
| JBool (b : bool)
| JNumber (f : float64)
| JString (s : string)
| JArray (l : list json)
| JObject (m : list (string * json)).

Definition jmap : Type := list (string * json).

Fixpoint lookup (k : string) (m : jmap) : option json :=
  match m with
  | [] => None
  | (k', v) :: m' => if String.eqb k k' then Some v else lookup k m'
  end.

(** [m[k]]: indexing a Go map gives the zero value, the nil interface,
    when the key is missing (and also when the map itself is nil). *)
Definition index (m : jmap) (k : string) : json :=
  match lookup k m with
  | Some v => v
  | None => JNull
  end.

(** A response body: the bytes received and what [encoding/json] reads
    from them, [None] when they are not valid JSON. *)
Record Body : Type := mkBody { raw : string; parsed : option json }.

(** The decoder hands an [Unmarshaler] the bytes of the value alone,
    without the white space around it. *)
Definition isSpace (c : ascii) : bool :=
  match nat_of_ascii c with
  | 32%nat | 9%nat | 13%nat | 10%nat => true
  | _ => false
  end.

Fixpoint trimLeft (s : string) : string :=
  match s with
  | String c s' => if isSpace c then trimLeft s' else s
  | EmptyString => EmptyString
  end.

Fixpoint rev_string (s acc : string) : string :=
  match s with
  | EmptyString => acc
  | String c s' => rev_string s' (String c acc)
  end.

Definition trimSpace (s : string) : string :=
  rev_string (trimLeft (rev_string (trimLeft s) EmptyString)) EmptyString.

(* ================================================================== *)
(** ** Outcomes

    A Go function of this package returns a value, returns an error, or
    panics on a type assertion that does not hold. *)

Inductive gotype : Type := TString | TFloat64 | TSlice | TMap.

Inductive panic : Type :=
| TypeAssertion (wanted : gotype) (got : json).

(** [time.Time]: the instant, in nanoseconds since the Unix epoch, and
    the offset of its zone in seconds east of UTC.  The monotonic clock
    reading is left out. *)
Record Time : Type := mkTime { unixNano : Z; zoneOffset : Z }.

(** [time.Duration] is an [int64] count of nanoseconds. *)
Definition Duration : Type := Z.
Definition Nanosecond : Duration := 1.
Definition Second : Duration := 1000000000.
Definition Minute : Duration := 60 * Second.
Definition Hour : Duration := 60 * Minute.

Inductive error : Type :=
| SyntaxError                         (* encoding/json: the bytes are not JSON *)
| UnmarshalTypeError                  (* encoding/json: not an object at top level *)
| TransportError (msg : string)       (* http.Get or ioutil.ReadAll *)
| FailedToUnmarshal (data : string)   (* Failed to unmarshal JSON; %s *)
| APIError (code message : string)    (* API error; Code: %s Message: %s *)
| UnexpectedEntries (body : string)   (* Unexpected API response; unexpected number of entries; %s *)
| InvalidSettlementPeriod (p : Z)     (* Invalid settlmentPeriod %d; must be 1 <= settlementPeriod <= 48 *)
| NotStrictlyEarlier (from to : Time) (* from (%s) must be strictly earlier than to (%s) *)
| RangeTooLarge (from to : Time)      (* The maximum date range is limited to 30 days. From (%s) To (%s) *)
| InvalidBlockSize (blockSize : Duration). (* Invalid blocksize %s; must be between 1 and 24 hours inclusive *)

Inductive outcome (A : Type) : Type :=
| Ok (a : A)
| Err (e : error)
| Panic (p : panic).

Arguments Ok {A} a.
Arguments Err {A} e.
Arguments Panic {A} p.

Definition bind {A B : Type} (o : outcome A) (k : A -> outcome B) : outcome B :=
  match o with
  | Ok a => k a
  | Err e => Err e
  | Panic p => Panic p
  end.

Notation "x <- e ;; k" := (bind e (fun x => k))
  (at level 61, e at next level, right associativity).

Definition is_err {A : Type} (o : outcome A) : bool :=
  match o with Err _ => true | _ => false end.
Definition is_panic {A : Type} (o : outcome A) : bool :=
  match o with Panic _ => true | _ => false end.

(** The type assertions [v.(T)]. *)
Definition assertString (v : json) : outcome string :=
  match v with JString s => Ok s | _ => Panic (TypeAssertion TString v) end.
Definition assertFloat64 (v : json) : outcome float64 :=
  match v with JNumber f => Ok f | _ => Panic (TypeAssertion TFloat64 v) end.
Definition assertSlice (v : json) : outcome (list json) :=
  match v with JArray l => Ok l | _ => Panic (TypeAssertion TSlice v) end.
Definition assertMap (v : json) : outcome jmap :=
  match v with JObject m => Ok m | _ => Panic (TypeAssertion TMap v) end.

(** [json.Unmarshal(data, &decoded)] for [decoded] a
    [map[string]interface{}]: an object fills the map, null leaves it
    nil, anything else is refused. *)
Definition json_Unmarshal_map (data : Body) : outcome jmap :=
  match parsed data with
  | None => Err SyntaxError
  | Some (JObject m) => Ok m
  | Some JNull => Ok []
  | Some _ => Err UnmarshalTypeError
  end.

(* ================================================================== *)
(** ** Times and durations *)

(** [t.Before(u)] compares the instants. *)
Definition Before (t u : Time) : bool := unixNano t <? unixNano u.

(** [t.Sub(u)] is the difference of the instants; when it does not fit a
    [Duration] the greatest (or least) duration is returned. *)
Definition Sub (t u : Time) : Duration :=
  let d := unixNano t - unixNano u in
  if d <? minInt64 then minInt64
  else if maxInt64 <? d then maxInt64
  else d.

(** [d.Hours()]: the whole hours and the rest are converted apart and
    added as [float64]s. *)
Definition Hours (d : Duration) : float64 :=
  let hour := Z.quot d Hour in
  let nsec := Z.rem d Hour in
  float64_add (float64_of_int hour)
    (float64_div (float64_of_int nsec) (float64_of_int (60 * 60 * 1000000000))).

(* ================================================================== *)
(** ** The package's constants and records *)

Definition natGridServerAddress : string := "https://api.carbonintensity.org.uk".
Definition natGridTimeFormat : string := "2006-01-02T15:04Z07:00".

Record APIHandler : Type := mkAPIHandler { serverAddress : string }.

(** The fields [From], [To] and [Index], which the two records of
    results share, carry the initial of their record. *)
Record Intensity : Type := mkIntensity {
  iFrom : Time;
  iTo : Time;
  Forecast : Z;
  Actual : Z;
  iIndex : string
}.

Record intensityResponse : Type := mkIntensityResponse {
  ientries : list Intensity
}.

Record Statistics : Type := mkStatistics {
  sFrom : Time;
  sTo : Time;
  Max : Z;
  Average : Z;
  Min : Z;
  sIndex : string
}.

Record statisticsResponse : Type := mkStatisticsResponse {
  sentries : list Statistics
}.

Record IntensityFactors : Type := mkIntensityFactors {
  Biomass : Z;
  Coal : Z;
  DutchImports : Z;
  FrenchImports : Z;
  IrishImports : Z;
  GasCombinedCycle : Z;
  GasOpenCycle : Z;
  Hydro : Z;
  Nuclear : Z;
  Oil : Z;
  Other : Z;
  PumpedStorage : Z;
  Solar : Z;
  Wind : Z
}.

Definition newCarbonIntensityAPIHandlerInternal (address : string) : APIHandler :=
  {| serverAddress := address |}.

Definition NewCarbonIntensityAPIHandler : APIHandler :=
  newCarbonIntensityAPIHandlerInternal natGridServerAddress.

(** [unmarshalInt]: the value when there is none, else the number
    converted to [int]. *)
Definition unmarshalInt (val : json) (valIfNil : Z) : outcome Z :=
  match val with
  | JNull => Ok valIfNil
  | _ => f <- assertFloat64 val ;; Ok (int_of_float64 f)
  end.

(** One field of the factor table: [int(factorDict[key].(float64))]. *)
Definition factor (factorDict : jmap) (key : string) : outcome Z :=
  f <- assertFloat64 (index factorDict key) ;; Ok (int_of_float64 f).

(** The fourteen keys [GetIntensityFactors] reads, in the order it reads
    them. *)
Definition factorKeys : list string :=
  [ "Biomass"; "Coal"; "Dutch Imports"; "French Imports";
    "Gas (Combined Cycle)"; "Gas (Open Cycle)"; "Hydro"; "Irish Imports";
    "Nuclear"; "Oil"; "Other"; "Pumped Storage"; "Solar"; "Wind" ]%string.

(* ================================================================== *)
(** ** Operations that query the server

    An operation yields the requests it made of the transport, oldest
    first, and its outcome. *)

Definition M (A : Type) : Type := (list string * outcome A)%type.

Definition ret {A : Type} (a : A) : M A := ([], Ok a).
Definition fail {A : Type} (e : error) : M A := ([], Err e).
Definition lift {A : Type} (o : outcome A) : M A := ([], o).

Definition bindM {A B : Type} (m : M A) (k : A -> M B) : M B :=
  match m with
  | (tr, Ok a) => let (tr', r) := k a in (tr ++ tr', r)
  | (tr, Err e) => (tr, Err e)
  | (tr, Panic p) => (tr, Panic p)
  end.

Notation "x <~ e ;; k" := (bindM e (fun x => k))
  (at level 61, e at next level, right associativity).

Definition requests {A : Type} (m : M A) : list string := fst m.
Definition result {A : Type} (m : M A) : outcome A := snd m.

(* ================================================================== *)
(** ** Reference collaborators

    Implementations of the library functions the package calls, for the
    layout [natGridTimeFormat] only and for times written with all
    their digits, and transports that answer every request alike.  The
    worked examples run the package on them; the general statements do
    not depend on them. *)

Definition digitOf (c : ascii) : option Z :=
  let n := Z.of_nat (nat_of_ascii c) in
  if (48 <=? n) && (n <=? 57) then Some (n - 48) else None.

Fixpoint readDigits (n : nat) (acc : Z) (s : string) : option (Z * string) :=
  match n with
  | O => Some (acc, s)
  | S n' =>
      match s with
      | String c s' =>
          match digitOf c with
          | Some d => readDigits n' (10 * acc + d) s'
          | None => None
          end
      | EmptyString => None
      end
  end.

Definition expect (c : ascii) (s : string) : option string :=
  match s with
  | String c' s' => if Ascii.eqb c c' then Some s' else None
  | EmptyString => None
  end.

Definition obind {A B : Type} (o : option A) (k : A -> option B) : option B :=
  match o with
  | Some a => k a
  | None => None
  end.

Notation "x <-? e ;; k" := (obind e (fun x => k))
  (at level 61, e at next level, right associativity).
Notation "' p <-? e ;; k" := (obind e (fun x => match x with p => k end))
  (at level 61, p pattern, e at next level, right associativity).

(** Days between 1970-01-01 and a date of the proleptic Gregorian
    calendar, and back. *)
Definition daysFromCivil (y m d : Z) : Z :=
  let y' := if m <=? 2 then y - 1 else y in
  let era := y' / 400 in
  let yoe := y' - era * 400 in
  let doy := (153 * (if 2 <? m then m - 3 else m + 9) + 2) / 5 + d - 1 in
  let doe := yoe * 365 + yoe / 4 - yoe / 100 + doy in
  era * 146097 + doe - 719468.

Definition civilFromDays (days : Z) : Z * Z * Z :=
  let z := days + 719468 in
  let era := z / 146097 in
  let doe := z - era * 146097 in
  let yoe := (doe - doe / 1460 + doe / 36524 - doe / 146096) / 365 in
  let doy := doe - (365 * yoe + yoe / 4 - yoe / 100) in
  let mp := (5 * doy + 2) / 153 in
  let d := doy - (153 * mp + 2) / 5 + 1 in
  let m := if mp <? 10 then mp + 3 else mp - 9 in
  ((if m <=? 2 then yoe + era * 400 + 1 else yoe + era * 400), m, d).

Definition isLeap (y : Z) : bool :=
  (y mod 4 =? 0) && (negb (y mod 100 =? 0) || (y mod 400 =? 0)).

Definition daysIn (y m : Z) : Z :=
  if m =? 2 then (if isLeap y then 29 else 28)
  else if (m =? 4) || (m =? 6) || (m =? 9) || (m =? 11) then 30
  else 31.

(** The zone of the layout, [Z07:00]: the letter Z, or a sign, two
    digits of hours, a colon and two digits of minutes. *)
Definition parseZone (s : string) : option Z :=
  match s with
  | String "Z" EmptyString => Some 0
  | String sign rest =>
      '(hh, rest1) <-? readDigits 2 0 rest ;;
      rest2 <-? expect ":" rest1 ;;
      '(mm, rest3) <-? readDigits 2 0 rest2 ;;
      match rest3 with
      | EmptyString =>
          if Ascii.eqb sign "+" then Some (hh * 3600 + mm * 60)
          else if Ascii.eqb sign "-" then Some (- (hh * 3600 + mm * 60))
          else None
      | String _ _ => None
      end
  | EmptyString => None
  end.

Definition refParse (layout value : string) : option Time :=
  if negb (String.eqb layout natGridTimeFormat) then None else
  '(y, s1) <-? readDigits 4 0 value ;;
  s2 <-? expect "-" s1 ;;
  '(mo, s3) <-? readDigits 2 0 s2 ;;
  s4 <-? expect "-" s3 ;;
  '(d, s5) <-? readDigits 2 0 s4 ;;
  s6 <-? expect "T" s5 ;;
  '(h, s7) <-? readDigits 2 0 s6 ;;
  s8 <-? expect ":" s7 ;;
  '(mi, s9) <-? readDigits 2 0 s8 ;;
  off <-? parseZone s9 ;;
  if (1 <=? mo) && (mo <=? 12) && (1 <=? d) && (d <=? daysIn y mo)
     && (h <? 24) && (mi <? 60)
  then Some {| unixNano :=
                 (daysFromCivil y mo d * 86400 + h * 3600 + mi * 60 - off) * Second;
               zoneOffset := off |}
  else None.

Definition formatZone (off : Z) : string :=
  if off =? 0 then "Z"%string
  else
    let a := Z.abs off in
    let sign := if off <? 0 then "-"%string else "+"%string in
    (sign ++ fmt_0d 2 (a / 3600) ++ ":" ++ fmt_0d 2 (a mod 3600 / 60))%string.

Definition refDate (t : Time) : Z * Z * Z :=
  civilFromDays ((unixNano t / Second + zoneOffset t) / 86400).

Definition refFormat (layout : string) (t : Time) : string :=
  if negb (String.eqb layout natGridTimeFormat) then EmptyString else
  let secs := unixNano t / Second + zoneOffset t in
  let '(y, m, d) := civilFromDays (secs / 86400) in
  let sod := secs mod 86400 in
  (fmt_0d 4 y ++ "-" ++ fmt_0d 2 m ++ "-" ++ fmt_0d 2 d ++ "T"
     ++ fmt_0d 2 (sod / 3600) ++ ":" ++ fmt_0d 2 (sod mod 3600 / 60)
     ++ formatZone (zoneOffset t))%string.

(** A server that answers every request with the same body, and one
    that cannot be reached. *)
Definition serve (b : Body) : string -> error + Body := fun _ => inr b.
Definition unreachable : string -> error + Body :=
  fun _ => inl (TransportError "connection refused").

(** *** Fixtures

    Bodies as the server sends them.  [render] writes the text of a
    decoded value; the fixtures hold whole numbers and no character that
    needs escaping. *)

Definition quote : string := String "034" EmptyString.

Fixpoint render (v : json) : string :=
  match v with
  | JNull => "null"
  | JBool true => "true"
  | JBool false => "false"
  | JNumber f => fmt_d (int_of_float64 f)
  | JString s => quote ++ s ++ quote
  | JArray l =>
      "[" ++ (fix items (l : list json) : string :=
                match l with
                | [] => EmptyString
                | x :: l' =>
                    render x ++ match l' with
                                | [] => EmptyString
                                | _ :: _ => "," ++ items l'
                                end
                end) l ++ "]"
  | JObject m =>
      "{" ++ (fix members (m : list (string * json)) : string :=
                match m with
                | [] => EmptyString
                | (k, x) :: m' =>
                    quote ++ k ++ quote ++ ":" ++ render x
                      ++ match m' with
                         | [] => EmptyString
                         | _ :: _ => "," ++ members m'
                         end
                end) m ++ "}"
  end%string.

Definition bodyOf (v : json) : Body := {| raw := render v; parsed := Some v |}.

Definition num (z : Z) : json := JNumber (float64_of_int z).

Definition period (from to : string) (intensity : jmap) : json :=
  JObject [("from", JString from); ("to", JString to);
           ("intensity", JObject intensity)]%string.

Definition envelope (entries : list json) : json :=
  JObject [("data", JArray entries)]%string.

(** A settled half hour, and one still to come, whose actual intensity
    is null. *)
Definition settledPeriod : json :=
  period "2018-01-20T12:00Z" "2018-01-20T12:30Z"
    [("forecast", num 266); ("actual", num 263); ("index", JString "moderate")]%string.

Definition futurePeriod : json :=
  period "2018-01-20T12:30Z" "2018-01-20T13:00Z"
    [("forecast", num 50); ("actual", JNull); ("index", JString "low")]%string.

(** A period whose end is not a time of the layout. *)
Definition brokenPeriod : json :=
  period "2018-01-20T13:00Z" "yesterday"
    [("forecast", num 270); ("actual", JNull); ("index", JString "moderate")]%string.

Definition weekOfStatistics : json :=
  period "2018-01-20T12:00Z" "2018-01-27T12:00Z"
    [("max", num 331); ("average", num 257); ("min", num 169);
     ("index", JString "moderate")]%string.

Definition errorEnvelope : json :=
  JObject [("error", JObject [("code", JString "400 Bad Request");
                              ("message", JString "Please enter a valid start datetime")])]%string.

Definition factorTable : jmap :=
  [("Biomass", num 120); ("Coal", num 937); ("Dutch Imports", num 474);
   ("French Imports", num 53); ("Gas (Combined Cycle)", num 394);
   ("Gas (Open Cycle)", num 651); ("Hydro", num 0); ("Irish Imports", num 458);
   ("Nuclear", num 0); ("Oil", num 935); ("Other", num 300);
   ("Pumped Storage", num 0); ("Solar", num 0); ("Wind", num 0)]%string.

(** A map without the key [k]. *)
Definition without (k : string) (m : jmap) : jmap :=
  filter (fun kv => negb (String.eqb k (fst kv))) m.

Definition noon : Time := {| unixNano := 1516449600 * Second; zoneOffset := 0 |}.
Definition after (d : Duration) (t : Time) : Time :=
  {| unixNano := unixNano t + d; zoneOffset := zoneOffset t |}.

(** Bodies built of the entries above. *)
Definition twoPeriods : Body := bodyOf (envelope [settledPeriod; futurePeriod]).
Definition onePeriod : Body := bodyOf (envelope [settledPeriod]).
Definition brokenBody : Body :=
  bodyOf (envelope [settledPeriod; brokenPeriod; futurePeriod]).
Definition oneWeek : Body := bodyOf (envelope [weekOfStatistics]).
Definition twoWeeks : Body := bodyOf (envelope [weekOfStatistics; weekOfStatistics]).
Definition factorsBody : Body := bodyOf (envelope [JObject factorTable]).
Definition factorsWithoutWind : Body :=
  bodyOf (envelope [JObject (without "Wind" factorTable)]).
Definition errorBody : Body := bodyOf errorEnvelope.

(** Bytes that are no JSON, a body that is an array at top level, and a
    period without its index. *)
Definition notJSON : Body := {| raw := "<html>Bad Gateway</html>"; parsed := None |}.
Definition arrayBody : Body := bodyOf (JArray [settledPeriod]).
Definition emptyData : Body := bodyOf (envelope []).
Definition indexlessPeriod : json :=
  period "2018-01-20T13:00Z" "2018-01-20T13:30Z"
    [("forecast", num 270); ("actual", JNull)]%string.
Definition indexlessBody : Body := bodyOf (envelope [settledPeriod; indexlessPeriod]).

Definition quotedForecast : json :=
  period "2018-01-20T12:00Z" "2018-01-20T12:30Z"
    [("forecast", JString "266"); ("actual", num 263);
     ("index", JString "moderate")]%string.
Definition quotedBody : Body := bodyOf (envelope [quotedForecast]).

(* ================================================================== *)
(** ** The earlier snapshot

    The package as [carbon_intensity.go] has it: the records of results
    are nested, no operation checks a parameter, and today's and the
    current intensity are asked for by the date and time of the clock.
    [unmarshalInt], the handler and the decoding of the factor table
    read as in the current source and are not repeated. *)

Module Earlier.

(** The field [Intensity] of an entry, which has the name of its type,
    is written [Intensity_]; the fields of the statistics that repeat a
    name of the intensities carry an S. *)
Record Intensity : Type := mkIntensity {
  Forecast : Z;
  Actual : Z;
  Index : string
}.

Record IntensityEntry : Type := mkIntensityEntry {
  From : Time;
  To : Time;
  Intensity_ : Intensity
}.

Record intensityResponse : Type := mkIntensityResponse {
  entries : list IntensityEntry
}.

Record Statistics : Type := mkStatistics {
  Max : Z;
  Average : Z;
  Min : Z;
  SIndex : string
}.

Record StatisticsEntry : Type := mkStatisticsEntry {
  SFrom : Time;
  STo : Time;
  Stats : Statistics
}.

Record statisticsResponse : Type := mkStatisticsResponse {
  sentries : list StatisticsEntry
}.

Section Snapshot.

Variable time_Parse : string -> string -> option Time.
Variable time_Format : string -> Time -> string.
Variable time_Date : Time -> Z * Z * Z.
Variable http_Get : string -> error + Body.
(** What [time.Now()] reads when the operation is called. *)
Variable time_Now : Time.

Definition intensityEntry (value : json) : outcome (option IntensityEntry) :=
  decodedDataEntry <- assertMap value ;;
  toString <- assertString (index decodedDataEntry "to") ;;
  match time_Parse natGridTimeFormat toString with
  | None => Ok None
  | Some toTime =>
      fromString <- assertString (index decodedDataEntry "from") ;;
      match time_Parse natGridTimeFormat fromString with
      | None => Ok None
      | Some fromTime =>
          decodedIntensity <- assertMap (index decodedDataEntry "intensity") ;;
          forecast <- unmarshalInt (index decodedIntensity "forecast") (-1) ;;
          actual <- unmarshalInt (index decodedIntensity "actual") (-1) ;;
          idx <- assertString (index decodedIntensity "index") ;;
          Ok (Some {| To := toTime;
                      From := fromTime;
                      Intensity_ := {| Forecast := forecast;
                                       Actual := actual;
                                       Index := idx |} |})
      end
  end.

Fixpoint intensityLoop (decodedData : list json) (acc : list IntensityEntry)
  : outcome (list IntensityEntry) :=
  match decodedData with
  | [] => Ok acc
  | value :: rest =>
      r <- intensityEntry value ;;
      match r with
      | None => Ok acc
      | Some newEntry => intensityLoop rest (acc ++ [newEntry])
      end
  end.

Definition intensityResponse_UnmarshalJSON (ir : intensityResponse) (data : Body)
  : outcome intensityResponse :=
  decoded <- json_Unmarshal_map data ;;
  match index decoded "data" with
  | JNull =>
      match index decoded "error" with
      | JNull => Err (FailedToUnmarshal (raw data))
      | err =>
          errorMap <- assertMap err ;;
          code <- assertString (index errorMap "code") ;;
          message <- assertString (index errorMap "message") ;;
          Err (APIError code message)
      end
  | dat =>
      decodedData <- assertSlice dat ;;
      acc <- intensityLoop decodedData [] ;;
      Ok {| entries := acc |}
  end.

Definition statisticsEntry (value : json) : outcome (option StatisticsEntry) :=
  decodedDataEntry <- assertMap value ;;
  toString <- assertString (index decodedDataEntry "to") ;;
  match time_Parse natGridTimeFormat toString with
  | None => Ok None
  | Some toTime =>
      fromString <- assertString (index decodedDataEntry "from") ;;
      match time_Parse natGridTimeFormat fromString with
      | None => Ok None
      | Some fromTime =>
          decodedIntensity <- assertMap (index decodedDataEntry "intensity") ;;
          max <- unmarshalInt (index decodedIntensity "max") (-1) ;;
          average <- unmarshalInt (index decodedIntensity "average") (-1) ;;
          min <- unmarshalInt (index decodedIntensity "min") (-1) ;;
          idx <- assertString (index decodedIntensity "index") ;;
          Ok (Some {| STo := toTime;
                      SFrom := fromTime;
                      Stats := {| Max := max;
                                  Average := average;
                                  Min := min;
                                  SIndex := idx |} |})
      end
  end.

Fixpoint statisticsLoop (decodedData : list json) (acc : list StatisticsEntry)
  : outcome (list StatisticsEntry) :=
  match decodedData with
  | [] => Ok acc
  | value :: rest =>
      r <- statisticsEntry value ;;
      match r with
      | None => Ok acc
      | Some newEntry => statisticsLoop rest (acc ++ [newEntry])
      end
  end.

Definition statisticsResponse_UnmarshalJSON (sr : statisticsResponse) (data : Body)
  : outcome statisticsResponse :=
  decoded <- json_Unmarshal_map data ;;
  match index decoded "data" with
  | JNull =>
      match index decoded "error" with
      | JNull => Err (FailedToUnmarshal (raw data))
      | err =>
          errorMap <- assertMap err ;;
          code <- assertString (index errorMap "code") ;;
          message <- assertString (index errorMap "message") ;;
          Err (APIError code message)
      end
  | dat =>
      decodedData <- assertSlice dat ;;
      acc <- statisticsLoop decodedData [] ;;
      Ok {| sentries := acc |}
  end.

Definition valueBytes (responseBytes : Body) : Body :=
  {| raw := trimSpace (raw responseBytes); parsed := parsed responseBytes |}.

Definition json_Unmarshal_intensityResponse
  (responseBytes : Body) (response : intensityResponse) : outcome intensityResponse :=
  match parsed responseBytes with
  | None => Err SyntaxError
  | Some _ => intensityResponse_UnmarshalJSON response (valueBytes responseBytes)
  end.

Definition json_Unmarshal_statisticsResponse
  (responseBytes : Body) (response : statisticsResponse) : outcome statisticsResponse :=
  match parsed responseBytes with
  | None => Err SyntaxError
  | Some _ => statisticsResponse_UnmarshalJSON response (valueBytes responseBytes)
  end.

Definition getAPIResponse (ah : APIHandler) (resource : string) : M Body :=
  let url := (serverAddress ah ++ resource)%string in
  ([url], match http_Get url with
          | inl err => Err err
          | inr responseBytes => Ok responseBytes
          end).

Definition datePath (date : Time) : string :=
  let '(year, month, day) := time_Date date in
  ("/intensity/date/" ++ fmt_0d 4 year ++ "-" ++ fmt_0d 2 month ++ "-" ++ fmt_0d 2 day)%string.

Definition single {A : Type} (found : list A) (responseBytes : Body) : M A :=
  match found with
  | [entry] => ret entry
  | _ => fail (UnexpectedEntries (raw responseBytes))
  end.

Definition GetIntensityForDay (ah : APIHandler) (date : Time) : M (list IntensityEntry) :=
  responseBytes <~ getAPIResponse ah (datePath date) ;;
  response <~ lift (json_Unmarshal_intensityResponse responseBytes {| entries := [] |}) ;;
  ret (entries response).

Definition GetIntensityForDayAndSettlementPeriod
  (ah : APIHandler) (date : Time) (settlementPeriod : Z) : M IntensityEntry :=
  responseBytes <~ getAPIResponse ah
    (datePath date ++ "/" ++ fmt_d settlementPeriod)%string ;;
  response <~ lift (json_Unmarshal_intensityResponse responseBytes {| entries := [] |}) ;;
  single (entries response) responseBytes.

Definition GetTodaysIntensity (ah : APIHandler) : M (list IntensityEntry) :=
  GetIntensityForDay ah time_Now.

Definition GetIntensityForTimePeriod (ah : APIHandler) (time : Time) : M IntensityEntry :=
  responseBytes <~ getAPIResponse ah
    ("/intensity/" ++ time_Format natGridTimeFormat time)%string ;;
  response <~ lift (json_Unmarshal_intensityResponse responseBytes {| entries := [] |}) ;;
  single (entries response) responseBytes.

Definition GetCurrentIntensity (ah : APIHandler) : M IntensityEntry :=
  GetIntensityForTimePeriod ah time_Now.

Definition GetIntensityBetween (ah : APIHandler) (from to : Time)
  : M (list IntensityEntry) :=
  responseBytes <~ getAPIResponse ah
    ("/intensity/" ++ time_Format natGridTimeFormat from
       ++ "/" ++ time_Format natGridTimeFormat to)%string ;;
  response <~ lift (json_Unmarshal_intensityResponse responseBytes {| entries := [] |}) ;;
  ret (entries response).

Definition GetNext24HourIntensity (ah : APIHandler) (from : Time)
  : M (list IntensityEntry) :=
  responseBytes <~ getAPIResponse ah
    ("/intensity/" ++ time_Format natGridTimeFormat from ++ "/fw24h")%string ;;
  response <~ lift (json_Unmarshal_intensityResponse responseBytes {| entries := [] |}) ;;
  ret (entries response).

Definition GetNext48HourIntensity (ah : APIHandler) (from : Time)
  : M (list IntensityEntry) :=
  responseBytes <~ getAPIResponse ah
    ("/intensity/" ++ time_Format natGridTimeFormat from ++ "/fw48h")%string ;;
  response <~ lift (json_Unmarshal_intensityResponse responseBytes {| entries := [] |}) ;;
  ret (entries response).

Definition GetPrior24HourIntensity (ah : APIHandler) (from : Time)
  : M (list IntensityEntry) :=
  responseBytes <~ getAPIResponse ah
    ("/intensity/" ++ time_Format natGridTimeFormat from ++ "/pt24h")%string ;;
  response <~ lift (json_Unmarshal_intensityResponse responseBytes {| entries := [] |}) ;;
  ret (entries response).

Definition GetStatistics (ah : APIHandler) (from to : Time) : M StatisticsEntry :=
  responseBytes <~ getAPIResponse ah
    ("/intensity/stats/" ++ time_Format natGridTimeFormat from
       ++ "/" ++ time_Format natGridTimeFormat to)%string ;;
  response <~ lift (json_Unmarshal_statisticsResponse responseBytes {| sentries := [] |}) ;;
  single (sentries response) responseBytes.

Definition GetStatisticsInBlocks
  (ah : APIHandler) (from to : Time) (blockSize : Duration) : M (list StatisticsEntry) :=
  responseBytes <~ getAPIResponse ah
    ("/intensity/stats/" ++ time_Format natGridTimeFormat from
       ++ "/" ++ time_Format natGridTimeFormat to
       ++ "/" ++ fmt_d (int_of_float64 (Hours blockSize)))%string ;;
  response <~ lift (json_Unmarshal_statisticsResponse responseBytes {| sentries := [] |}) ;;
  ret (sentries response).

End Snapshot.

End Earlier.

(** The records of the earlier snapshot as the current ones. *)
Definition flattenIntensity (e : Earlier.IntensityEntry) : Intensity :=
  {| iFrom := Earlier.From e;
     iTo := Earlier.To e;
     Forecast := Earlier.Forecast (Earlier.Intensity_ e);
     Actual := Earlier.Actual (Earlier.Intensity_ e);
     iIndex := Earlier.Index (Earlier.Intensity_ e) |}.

Definition flattenStatistics (e : Earlier.StatisticsEntry) : Statistics :=
  {| sFrom := Earlier.SFrom e;
     sTo := Earlier.STo e;
     Max := Earlier.Max (Earlier.Stats e);
     Average := Earlier.Average (Earlier.Stats e);
     Min := Earlier.Min (Earlier.Stats e);
     sIndex := Earlier.SIndex (Earlier.Stats e) |}.

Definition omap {A B : Type} (f : A -> B) (o : outcome A) : outcome B :=
  match o with
  | Ok a => Ok (f a)
  | Err e => Err e
  | Panic p => Panic p
  end.

Definition mapM {A B : Type} (f : A -> B) (m : M A) : M B :=
  (fst m, omap f (snd m)).

(* ================================================================== *)
(** ** The package *)

Section Package.

(** [time.Parse(layout, value)], [t.Format(layout)], [t.Date()] and
    [http.Get(url)] followed by [ioutil.ReadAll]. *)
Variable time_Parse : string -> string -> option Time.
Variable time_Format : string -> Time -> string.
Variable time_Date : Time -> Z * Z * Z.
Variable http_Get : string -> error + Body.

(** *** Decoding an intensity response *)

(** The body of the loop over [data]: [None] when a time does not
    parse and the method leaves with [return nil]. *)
Definition intensityEntry (value : json) : outcome (option Intensity) :=
  decodedDataEntry <- assertMap value ;;
  toString <- assertString (index decodedDataEntry "to") ;;
  match time_Parse natGridTimeFormat toString with
  | None => Ok None
  | Some toTime =>
      fromString <- assertString (index decodedDataEntry "from") ;;
      match time_Parse natGridTimeFormat fromString with
      | None => Ok None
      | Some fromTime =>
          decodedIntensity <- assertMap (index decodedDataEntry "intensity") ;;
          forecast <- unmarshalInt (index decodedIntensity "forecast") (-1) ;;
          actual <- unmarshalInt (index decodedIntensity "actual") (-1) ;;
          idx <- assertString (index decodedIntensity "index") ;;
          Ok (Some {| iTo := toTime;
                      iFrom := fromTime;
                      Forecast := forecast;
                      Actual := actual;
                      iIndex := idx |})
      end
  end.

(** The loop: [entries] is [ir.entries] so far. *)
Fixpoint intensityLoop (decodedData : list json) (entries : list Intensity)
  : outcome (list Intensity) :=
  match decodedData with
  | [] => Ok entries
  | value :: rest =>
      r <- intensityEntry value ;;
      match r with
      | None => Ok entries
      | Some newEntry => intensityLoop rest (entries ++ [newEntry])
      end
  end.

(** [(ir *intensityResponse) UnmarshalJSON(data)]: [Ok] holds the
    receiver as the method leaves it when it returns nil. *)
Definition intensityResponse_UnmarshalJSON (ir : intensityResponse) (data : Body)
  : outcome intensityResponse :=
  decoded <- json_Unmarshal_map data ;;
  match index decoded "data" with
  | JNull =>
      match index decoded "error" with
      | JNull => Err (FailedToUnmarshal (raw data))
      | err =>
          errorMap <- assertMap err ;;
          code <- assertString (index errorMap "code") ;;
          message <- assertString (index errorMap "message") ;;
          Err (APIError code message)
      end
  | dat =>
      decodedData <- assertSlice dat ;;
      entries <- intensityLoop decodedData [] ;;
      Ok {| ientries := entries |}
  end.

(** *** Decoding a statistics response *)

Definition statisticsEntry (value : json) : outcome (option Statistics) :=
  decodedDataEntry <- assertMap value ;;
  toString <- assertString (index decodedDataEntry "to") ;;
  match time_Parse natGridTimeFormat toString with
  | None => Ok None
  | Some toTime =>
      fromString <- assertString (index decodedDataEntry "from") ;;
      match time_Parse natGridTimeFormat fromString with
      | None => Ok None
      | Some fromTime =>
          decodedIntensity <- assertMap (index decodedDataEntry "intensity") ;;
          max <- unmarshalInt (index decodedIntensity "max") (-1) ;;
          average <- unmarshalInt (index decodedIntensity "average") (-1) ;;
          min <- unmarshalInt (index decodedIntensity "min") (-1) ;;
          idx <- assertString (index decodedIntensity "index") ;;
          Ok (Some {| sTo := toTime;
                      sFrom := fromTime;
                      Max := max;
                      Average := average;
                      Min := min;
                      sIndex := idx |})
      end
  end.

Fixpoint statisticsLoop (decodedData : list json) (entries : list Statistics)
  : outcome (list Statistics) :=
  match decodedData with
  | [] => Ok entries
  | value :: rest =>
      r <- statisticsEntry value ;;
      match r with
      | None => Ok entries
      | Some newEntry => statisticsLoop rest (entries ++ [newEntry])
      end
  end.

Definition statisticsResponse_UnmarshalJSON (sr : statisticsResponse) (data : Body)
  : outcome statisticsResponse :=
  decoded <- json_Unmarshal_map data ;;
  match index decoded "data" with
  | JNull =>
      match index decoded "error" with
      | JNull => Err (FailedToUnmarshal (raw data))
      | err =>
          errorMap <- assertMap err ;;
          code <- assertString (index errorMap "code") ;;
          message <- assertString (index errorMap "message") ;;
          Err (APIError code message)
      end
  | dat =>
      decodedData <- assertSlice dat ;;
      entries <- statisticsLoop decodedData [] ;;
      Ok {| sentries := entries |}
  end.

(** [json.Unmarshal(responseBytes, &response)] for a response with an
    [UnmarshalJSON] method: the bytes are checked to be JSON, then the
    method gets the bytes of the value. *)
Definition valueBytes (responseBytes : Body) : Body :=
  {| raw := trimSpace (raw responseBytes); parsed := parsed responseBytes |}.

Definition json_Unmarshal_intensityResponse
  (responseBytes : Body) (response : intensityResponse) : outcome intensityResponse :=
  match parsed responseBytes with
  | None => Err SyntaxError
  | Some _ => intensityResponse_UnmarshalJSON response (valueBytes responseBytes)
  end.

Definition json_Unmarshal_statisticsResponse
  (responseBytes : Body) (response : statisticsResponse) : outcome statisticsResponse :=
  match parsed responseBytes with
  | None => Err SyntaxError
  | Some _ => statisticsResponse_UnmarshalJSON response (valueBytes responseBytes)
  end.

(** *** Decoding the factor table

    What [GetIntensityFactors] does with the bytes it received. *)
Definition decodeIntensityFactors (responseBytes : Body) : outcome IntensityFactors :=
  response <- json_Unmarshal_map responseBytes ;;
  match index response "data" with
  | JNull =>
      match index response "error" with
      | JNull => Err (FailedToUnmarshal (raw responseBytes))
      | err =>
          errorMap <- assertMap err ;;
          code <- assertString (index errorMap "code") ;;
          message <- assertString (index errorMap "message") ;;
          Err (APIError code message)
      end
  | dat =>
      responseData <- assertSlice dat ;;
      match responseData with
      | [entry] =>
          factorDict <- assertMap entry ;;
          biomass <- factor factorDict "Biomass" ;;
          coal <- factor factorDict "Coal" ;;
          dutchImports <- factor factorDict "Dutch Imports" ;;
          frenchImports <- factor factorDict "French Imports" ;;
          gasCombinedCycle <- factor factorDict "Gas (Combined Cycle)" ;;
          gasOpenCycle <- factor factorDict "Gas (Open Cycle)" ;;
          hydro <- factor factorDict "Hydro" ;;
          irishImports <- factor factorDict "Irish Imports" ;;
          nuclear <- factor factorDict "Nuclear" ;;
          oil <- factor factorDict "Oil" ;;
          other <- factor factorDict "Other" ;;
          pumpedStorage <- factor factorDict "Pumped Storage" ;;
          solar <- factor factorDict "Solar" ;;
          wind <- factor factorDict "Wind" ;;
          Ok {| Biomass := biomass;
                Coal := coal;
                DutchImports := dutchImports;
                FrenchImports := frenchImports;
                GasCombinedCycle := gasCombinedCycle;
                GasOpenCycle := gasOpenCycle;
                Hydro := hydro;
                IrishImports := irishImports;
                Nuclear := nuclear;
                Oil := oil;
                Other := other;
                PumpedStorage := pumpedStorage;
                Solar := solar;
                Wind := wind |}
      | _ => Err (UnexpectedEntries (raw responseBytes))
      end
  end.

(** *** The public operations *)

Definition getAPIResponse (ah : APIHandler) (resource : string) : M Body :=
  let url := (serverAddress ah ++ resource)%string in
  ([url], match http_Get url with
          | inl err => Err err
          | inr responseBytes => Ok responseBytes
          end).

Definition datePath (date : Time) : string :=
  let '(year, month, day) := time_Date date in
  ("/intensity/date/" ++ fmt_0d 4 year ++ "-" ++ fmt_0d 2 month ++ "-" ++ fmt_0d 2 day)%string.

(** The entry of a response that must hold exactly one. *)
Definition single {A : Type} (entries : list A) (responseBytes : Body) : M A :=
  match entries with
  | [entry] => ret entry
  | _ => fail (UnexpectedEntries (raw responseBytes))
  end.

Definition GetIntensityForDay (ah : APIHandler) (date : Time) : M (list Intensity) :=
  responseBytes <~ getAPIResponse ah (datePath date) ;;
  response <~ lift (json_Unmarshal_intensityResponse responseBytes {| ientries := [] |}) ;;
  ret (ientries response).

Definition GetIntensityForDayAndSettlementPeriod
  (ah : APIHandler) (date : Time) (settlementPeriod : Z) : M Intensity :=
  if (settlementPeriod <? 1) || (48 <? settlementPeriod) then
    fail (InvalidSettlementPeriod settlementPeriod)
  else
    responseBytes <~ getAPIResponse ah
      (datePath date ++ "/" ++ fmt_d settlementPeriod)%string ;;
    response <~ lift (json_Unmarshal_intensityResponse responseBytes {| ientries := [] |}) ;;
    single (ientries response) responseBytes.

Definition GetTodaysIntensity (ah : APIHandler) : M (list Intensity) :=
  responseBytes <~ getAPIResponse ah "/intensity/date" ;;
  response <~ lift (json_Unmarshal_intensityResponse responseBytes {| ientries := [] |}) ;;
  ret (ientries response).

Definition GetIntensityForTimePeriod (ah : APIHandler) (time : Time) : M Intensity :=
  responseBytes <~ getAPIResponse ah
    ("/intensity/" ++ time_Format natGridTimeFormat time)%string ;;
  response <~ lift (json_Unmarshal_intensityResponse responseBytes {| ientries := [] |}) ;;
  single (ientries response) responseBytes.

Definition GetCurrentIntensity (ah : APIHandler) : M Intensity :=
  responseBytes <~ getAPIResponse ah "/intensity" ;;
  response <~ lift (json_Unmarshal_intensityResponse responseBytes {| ientries := [] |}) ;;
  single (ientries response) responseBytes.

Definition GetIntensityBetween (ah : APIHandler) (from to : Time) : M (list Intensity) :=
  if negb (Before from to) then fail (NotStrictlyEarlier from to)
  else if Hour * 24 * 30 <? Sub to from then fail (RangeTooLarge from to)
  else
    responseBytes <~ getAPIResponse ah
      ("/intensity/" ++ time_Format natGridTimeFormat from
         ++ "/" ++ time_Format natGridTimeFormat to)%string ;;
    response <~ lift (json_Unmarshal_intensityResponse responseBytes {| ientries := [] |}) ;;
    ret (ientries response).

Definition GetNext24HourIntensity (ah : APIHandler) (from : Time) : M (list Intensity) :=
  responseBytes <~ getAPIResponse ah
    ("/intensity/" ++ time_Format natGridTimeFormat from ++ "/fw24h")%string ;;
  response <~ lift (json_Unmarshal_intensityResponse responseBytes {| ientries := [] |}) ;;
  ret (ientries response).

Definition GetNext48HourIntensity (ah : APIHandler) (from : Time) : M (list Intensity) :=
  responseBytes <~ getAPIResponse ah
    ("/intensity/" ++ time_Format natGridTimeFormat from ++ "/fw48h")%string ;;
  response <~ lift (json_Unmarshal_intensityResponse responseBytes {| ientries := [] |}) ;;
  ret (ientries response).

Definition GetPrior24HourIntensity (ah : APIHandler) (from : Time) : M (list Intensity) :=
  responseBytes <~ getAPIResponse ah
    ("/intensity/" ++ time_Format natGridTimeFormat from ++ "/pt24h")%string ;;
  response <~ lift (json_Unmarshal_intensityResponse responseBytes {| ientries := [] |}) ;;
  ret (ientries response).

Definition GetIntensityFactors (ah : APIHandler) : M IntensityFactors :=
  responseBytes <~ getAPIResponse ah "/intensity/factors" ;;
  lift (decodeIntensityFactors responseBytes).

Definition GetStatistics (ah : APIHandler) (from to : Time) : M Statistics :=
  if negb (Before from to) then fail (NotStrictlyEarlier from to)
  else if Hour * 24 * 30 <? Sub to from then fail (RangeTooLarge from to)
  else
    responseBytes <~ getAPIResponse ah
      ("/intensity/stats/" ++ time_Format natGridTimeFormat from
         ++ "/" ++ time_Format natGridTimeFormat to)%string ;;
    response <~ lift (json_Unmarshal_statisticsResponse responseBytes {| sentries := [] |}) ;;
    single (sentries response) responseBytes.

Definition GetStatisticsInBlocks
  (ah : APIHandler) (from to : Time) (blockSize : Duration) : M (list Statistics) :=
  if negb (Before from to) then fail (NotStrictlyEarlier from to)
  else if Hour * 24 * 30 <? Sub to from then fail (RangeTooLarge from to)
  else
    let blockSizeHours := int_of_float64 (Hours blockSize) in
    if (blockSizeHours <? 1) || (24 <? blockSizeHours) then
      fail (InvalidBlockSize blockSize)
    else
      responseBytes <~ getAPIResponse ah
        ("/intensity/stats/" ++ time_Format natGridTimeFormat from
           ++ "/" ++ time_Format natGridTimeFormat to
           ++ "/" ++ fmt_d blockSizeHours)%string ;;
      response <~ lift (json_Unmarshal_statisticsResponse responseBytes {| sentries := [] |}) ;;
      ret (sentries response).


(* ================================================================== *)
(** ** Shapes of a decoded body

    The words of the specification about a body, as predicates on what
    [encoding/json] decoded. *)

Definition isString (v : json) : bool :=
  match v with JString _ => true | _ => false end.
Definition isNumber (v : json) : bool :=
  match v with JNumber _ => true | _ => false end.
Definition numberOrNull (v : json) : bool :=
  match v with JNull | JNumber _ => true | _ => false end.

(** A string that [time.Parse] accepts in the fixed layout. *)
Definition parses (v : json) : bool :=
  match v with
  | JString s =>
      match time_Parse natGridTimeFormat s with
      | Some _ => true
      | None => false
      end
  | _ => false
  end.

Definition intensityFields : list string := ["forecast"; "actual"]%string.
Definition statisticsFields : list string := ["max"; "average"; "min"]%string.

(** An entry of the types the decoders assert: strings for the two
    times, an object for [intensity] whose numeric fields are numbers,
    null or missing and whose [index] is a string. *)
Definition typedEntry (fields : list string) (value : json) : bool :=
  match value with
  | JObject e =>
      isString (index e "to") && isString (index e "from") &&
      match index e "intensity" with
      | JObject i =>
          forallb (fun k => numberOrNull (index i k)) fields
          && isString (index i "index")
      | _ => false
      end
  | _ => false
  end.

(** A well-formed entry: typed, and both times parse. *)
Definition wellFormedEntry (fields : list string) (value : json) : bool :=
  typedEntry fields value &&
  match value with
  | JObject e => parses (index e "to") && parses (index e "from")
  | _ => false
  end.

(** A well-formed entry in the words of the specification: string
    timestamps that parse, an intensity object, a string index.  Nothing
    is asked of the numeric fields. *)
Definition wellFormedAsWorded (value : json) : bool :=
  match value with
  | JObject e =>
      parses (index e "to") && parses (index e "from") &&
      match index e "intensity" with
      | JObject i => isString (index i "index")
      | _ => false
      end
  | _ => false
  end.











(** The number under a key of the factor table, as [int]. *)
Definition factorOf (d : jmap) (k : string) : Z :=
  match index d k with
  | JNumber f => int_of_float64 f
  | _ => 0
  end.

(** The value a numeric field decodes to. *)
Definition fieldOf (i : jmap) (k : string) : Z :=
  match index i k with
  | JNumber f => int_of_float64 f
  | _ => -1
  end.

(** The whole hours of a block size, as [GetStatisticsInBlocks] takes
    them. *)
Definition blockHours (blockSize : Duration) : Z :=
  int_of_float64 (Hours blockSize).

Definition thirtyDays : Duration := Hour * 24 * 30.

(** *** The example program

    The loop of [example.go] that draws the records it got from
    [GetTodaysIntensity], one character for every [charRepSize] gCO2/KWh.
    A loop yields the text it prints; [int] arithmetic wraps around. *)

Definition charRepSize : Z := 10.
Definition forecastChar : ascii := "-".
Definition actualChar : ascii := "*".

Definition wrapInt (z : Z) : Z := (z + 2 ^ 63) mod 2 ^ 64 - 2 ^ 63.

Definition timeColumnLen : Z :=
  Z.of_nat (String.length ("15:04" ++ "->" ++ "15:04" ++ " ")%string).

(** [for i := i0; i < n; i += step { fmt.Printf("%c", c) }]. *)
Fixpoint printLoop (fuel : nat) (c : ascii) (step i n : Z) : option string :=
  if i <? n then
    match fuel with
    | O => None
    | S fuel' =>
        rest <-? printLoop fuel' c step (wrapInt (i + step)) n ;;
        Some (String c rest)
    end
  else Some EmptyString.

(** The body of the loop over the records. *)
Definition drawRow (fuel : nat) (intensity : Intensity) : option string :=
  let times := (time_Format "15:04" (iFrom intensity) ++ "->"
                  ++ time_Format "15:04" (iTo intensity) ++ " ")%string in
  forecast <-? printLoop fuel forecastChar charRepSize 0 (Forecast intensity) ;;
  if negb (Actual intensity =? -1) then
    margin <-? printLoop fuel " " 1 0 timeColumnLen ;;
    actual <-? printLoop fuel actualChar charRepSize 0 (Actual intensity) ;;
    Some (times ++ forecast ++ String "010" margin ++ actual ++ String "010" EmptyString)%string
  else
    Some (times ++ forecast ++ String "010" (String "010" EmptyString))%string.

Fixpoint drawRows (fuel : nat) (intensityArray : list Intensity) : option string :=
  match intensityArray with
  | [] => Some EmptyString
  | intensity :: rest =>
      row <-? drawRow fuel intensity ;;
      rows <-? drawRows fuel rest ;;
      Some (row ++ rows)%string
  end.

(** [n] times the character [c]. *)
Fixpoint copies (n : nat) (c : ascii) : string :=
  match n with
  | O => EmptyString
  | S n' => String c (copies n' c)
  end.

(** The characters that stand for a value: one for every ten, the last
    ten begun counting as whole, and none for a value that is not
    positive. *)
Definition barLength (value : Z) : nat := Z.to_nat ((value + 9) / 10).

(** The two lines of a record. *)
Definition rowText (intensity : Intensity) : string :=
  let times := (time_Format "15:04" (iFrom intensity) ++ "->"
                  ++ time_Format "15:04" (iTo intensity) ++ " ")%string in
  let newline := String "010" EmptyString in
  (times ++ copies (barLength (Forecast intensity)) forecastChar ++ newline
     ++ (if (Actual intensity =? -1)%Z then EmptyString
         else copies 13 " " ++ copies (barLength (Actual intensity)) actualChar)
     ++ newline)%string.

(** The operations that check no parameter, by what they return. *)
Definition uncheckedLists (ah : APIHandler) (date from : Time)
  : list (M (list Intensity)) :=
  [ GetIntensityForDay ah date; GetTodaysIntensity ah;
    GetNext24HourIntensity ah from; GetNext48HourIntensity ah from;
    GetPrior24HourIntensity ah from ].

Definition uncheckedSingles (ah : APIHandler) (time : Time) : list (M Intensity) :=
  [ GetIntensityForTimePeriod ah time; GetCurrentIntensity ah ].

(** A value that is neither an object nor null. *)
Definition notObject (v : json) : bool :=
  match v with
  | JObject _ | JNull => false
  | _ => true
  end.

(* ================================================================== *)
(** ** Properties *)

(** *** The decoding loops *)

Lemma unmarshalInt_numberOrNull (v : json) (d : Z) :
  numberOrNull v = true ->
  unmarshalInt v d = Ok (match v with JNumber f => int_of_float64 f | _ => d end).
Proof.
  destruct v; simpl; intros H; try discriminate; reflexivity.
Qed.

Lemma assertString_isString (v : json) :
  isString v = true -> exists s, v = JString s.
Proof.
  destruct v; simpl; intros H; try discriminate. eauto.
Qed.

Lemma parses_Some (v : json) :
  parses v = true ->
  exists s t, v = JString s /\ time_Parse natGridTimeFormat s = Some t.
Proof.
  destruct v; simpl; intros H; try discriminate.
  destruct (time_Parse natGridTimeFormat s) as [t |] eqn:E; try discriminate.
  eauto.
Qed.

Lemma intensityEntry_wellFormed (value : json) :
  wellFormedEntry intensityFields value = true ->
  exists entry, intensityEntry value = Ok (Some entry).
Proof.
  unfold wellFormedEntry, typedEntry, intensityEntry.
  destruct value as [| | | | | e]; simpl; try discriminate.
  intros H. rewrite !andb_true_iff in H.
  destruct H as [[[_ _] Hint] [Pto Pfrom]].
  destruct (index e "intensity") as [| | | | | i]; try discriminate.
  simpl in Hint. rewrite !andb_true_iff in Hint.
  destruct Hint as [[Hf [Ha _]] Hi].
  destruct (parses_Some _ Pto) as (ts & tt & Ets & Ept).
  destruct (parses_Some _ Pfrom) as (fs & ft & Efs & Epf).
  rewrite Ets, Efs. simpl. rewrite Ept. simpl. rewrite Epf. simpl.
  rewrite (unmarshalInt_numberOrNull _ _ Hf). simpl.
  rewrite (unmarshalInt_numberOrNull _ _ Ha). simpl.
  destruct (assertString_isString _ Hi) as (ix & Eix). rewrite Eix. simpl.
  eauto.
Qed.

Lemma statisticsEntry_wellFormed (value : json) :
  wellFormedEntry statisticsFields value = true ->
  exists entry, statisticsEntry value = Ok (Some entry).
Proof.
  unfold wellFormedEntry, typedEntry, statisticsEntry.
  destruct value as [| | | | | e]; simpl; try discriminate.
  intros H. rewrite !andb_true_iff in H.
  destruct H as [[[_ _] Hint] [Pto Pfrom]].
  destruct (index e "intensity") as [| | | | | i]; try discriminate.
  simpl in Hint. rewrite !andb_true_iff in Hint.
  destruct Hint as [[Hmax [Havg [Hmin _]]] Hi].
  destruct (parses_Some _ Pto) as (ts & tt & Ets & Ept).
  destruct (parses_Some _ Pfrom) as (fs & ft & Efs & Epf).
  rewrite Ets, Efs. simpl. rewrite Ept. simpl. rewrite Epf. simpl.
  rewrite (unmarshalInt_numberOrNull _ _ Hmax). simpl.
  rewrite (unmarshalInt_numberOrNull _ _ Havg). simpl.
  rewrite (unmarshalInt_numberOrNull _ _ Hmin). simpl.
  destruct (assertString_isString _ Hi) as (ix & Eix). rewrite Eix. simpl.
  eauto.
Qed.

(** When every entry decodes, the loop appends the records one by one,
    in the order of the array. *)
Lemma intensityLoop_all (decodedData : list json) :
  forall entries : list Intensity,
    Forall (fun v => exists e, intensityEntry v = Ok (Some e)) decodedData ->
    exists news,
      intensityLoop decodedData entries = Ok (entries ++ news)
      /\ Forall2 (fun v e => intensityEntry v = Ok (Some e)) decodedData news.
Proof.
  induction decodedData as [| value rest IH]; intros entries Hall.
  - exists []. rewrite app_nil_r. split; [reflexivity | constructor].
  - inversion Hall as [| ? ? [e He] Hrest]; subst.
    destruct (IH (entries ++ [e]) Hrest) as (news & Hloop & Hnews).
    exists (e :: news). simpl. rewrite He. simpl. rewrite Hloop.
    rewrite <- app_assoc. split; [reflexivity | constructor; assumption].
Qed.

Lemma statisticsLoop_all (decodedData : list json) :
  forall entries : list Statistics,
    Forall (fun v => exists e, statisticsEntry v = Ok (Some e)) decodedData ->
    exists news,
      statisticsLoop decodedData entries = Ok (entries ++ news)
      /\ Forall2 (fun v e => statisticsEntry v = Ok (Some e)) decodedData news.
Proof.
  induction decodedData as [| value rest IH]; intros entries Hall.
  - exists []. rewrite app_nil_r. split; [reflexivity | constructor].
  - inversion Hall as [| ? ? [e He] Hrest]; subst.
    destruct (IH (entries ++ [e]) Hrest) as (news & Hloop & Hnews).
    exists (e :: news). simpl. rewrite He. simpl. rewrite Hloop.
    rewrite <- app_assoc. split; [reflexivity | constructor; assumption].
Qed.

Lemma Forall_wellFormed {A : Type} (P : json -> bool) (f : json -> outcome (option A))
  (decodedData : list json) :
  (forall v, P v = true -> exists e, f v = Ok (Some e)) ->
  forallb P decodedData = true ->
  Forall (fun v => exists e, f v = Ok (Some e)) decodedData.
Proof.
  intros HP Hall. apply Forall_forall. intros v Hin.
  apply HP. rewrite forallb_forall in Hall. apply Hall, Hin.
Qed.

(** C10, as amended.  A success envelope whose entries are all
    well-formed (both times are strings that parse, [intensity] is an
    object whose numeric fields are numbers, null or missing and whose
    [index] is a string) decodes, with both decoders, into a list with
    one record for each entry of the [data] array: the lists have the
    same length, and the i-th record is the one the loop body builds
    from the i-th entry. *)
Theorem decoded_entries_follow_data
  (ir : intensityResponse) (sr : statisticsResponse)
  (data : Body) (decoded : jmap) (decodedData : list json) :
  json_Unmarshal_map data = Ok decoded ->
  index decoded "data" = JArray decodedData ->
  (forallb (wellFormedEntry intensityFields) decodedData = true ->
   exists entries,
     intensityResponse_UnmarshalJSON ir data = Ok {| ientries := entries |}
     /\ length entries = length decodedData
     /\ Forall2 (fun v e => intensityEntry v = Ok (Some e)) decodedData entries)
  /\
  (forallb (wellFormedEntry statisticsFields) decodedData = true ->
   exists entries,
     statisticsResponse_UnmarshalJSON sr data = Ok {| sentries := entries |}
     /\ length entries = length decodedData
     /\ Forall2 (fun v e => statisticsEntry v = Ok (Some e)) decodedData entries).
Proof.
  intros Hmap Hdata. split; intros Hwf.
  - destruct (intensityLoop_all decodedData []
                (Forall_wellFormed _ _ _ intensityEntry_wellFormed Hwf))
      as (entries & Hloop & Hall).
    exists entries. unfold intensityResponse_UnmarshalJSON.
    rewrite Hmap. simpl. rewrite Hdata. simpl. rewrite Hloop. simpl.
    repeat split; [symmetry; eapply Forall2_length; eassumption | assumption].
  - destruct (statisticsLoop_all decodedData []
                (Forall_wellFormed _ _ _ statisticsEntry_wellFormed Hwf))
      as (entries & Hloop & Hall).
    exists entries. unfold statisticsResponse_UnmarshalJSON.
    rewrite Hmap. simpl. rewrite Hdata. simpl. rewrite Hloop. simpl.
    repeat split; [symmetry; eapply Forall2_length; eassumption | assumption].
Qed.

(** *** The factor table *)

(** Reading one factor gives the number under the key, or panics. *)
Lemma factor_cases (d : jmap) (k : string) :
  (factor d k = Ok (factorOf d k) /\ isNumber (index d k) = true)
  \/ (exists p, factor d k = Panic p /\ isNumber (index d k) = false).
Proof.
  unfold factor, factorOf.
  destruct (index d k); simpl; eauto.
Qed.

Ltac read_factor d k :=
  let H := fresh "Hnum" in
  let p := fresh "p" in
  destruct (factor_cases d k) as [[-> H] | (p & -> & H)]; simpl;
  [| rewrite ?H, ?andb_false_r; simpl; try reflexivity; try discriminate].

(** With one object in [data], the factors decode exactly when each of
    the fourteen keys holds a number, and the decoder panics when one
    does not. *)
Lemma decodeIntensityFactors_one (responseBytes : Body) (decoded d : jmap) :
  json_Unmarshal_map responseBytes = Ok decoded ->
  index decoded "data" = JArray [JObject d] ->
  if forallb (fun k => isNumber (index d k)) factorKeys
  then decodeIntensityFactors responseBytes
       = Ok {| Biomass := factorOf d "Biomass";
               Coal := factorOf d "Coal";
               DutchImports := factorOf d "Dutch Imports";
               FrenchImports := factorOf d "French Imports";
               GasCombinedCycle := factorOf d "Gas (Combined Cycle)";
               GasOpenCycle := factorOf d "Gas (Open Cycle)";
               Hydro := factorOf d "Hydro";
               IrishImports := factorOf d "Irish Imports";
               Nuclear := factorOf d "Nuclear";
               Oil := factorOf d "Oil";
               Other := factorOf d "Other";
               PumpedStorage := factorOf d "Pumped Storage";
               Solar := factorOf d "Solar";
               Wind := factorOf d "Wind" |}
  else is_panic (decodeIntensityFactors responseBytes) = true.
Proof.
  intros Hmap Hdata. unfold decodeIntensityFactors.
  rewrite Hmap. simpl bind. rewrite Hdata. simpl assertSlice. simpl bind.
  unfold factorKeys, forallb.
  read_factor d "Biomass"%string.
  read_factor d "Coal"%string.
  read_factor d "Dutch Imports"%string.
  read_factor d "French Imports"%string.
  read_factor d "Gas (Combined Cycle)"%string.
  read_factor d "Gas (Open Cycle)"%string.
  read_factor d "Hydro"%string.
  read_factor d "Irish Imports"%string.
  read_factor d "Nuclear"%string.
  read_factor d "Oil"%string.
  read_factor d "Other"%string.
  read_factor d "Pumped Storage"%string.
  read_factor d "Solar"%string.
  read_factor d "Wind"%string.
  rewrite Hnum, Hnum0, Hnum1, Hnum2, Hnum3, Hnum4, Hnum5, Hnum6, Hnum7,
    Hnum8, Hnum9, Hnum10, Hnum11, Hnum12.
  reflexivity.
Qed.



(** *** Numeric fields and the factor table *)

Lemma index_absent_or_null (m : jmap) (k : string) :
  lookup k m = None \/ lookup k m = Some JNull -> index m k = JNull.
Proof. unfold index. intros [-> | ->]; reflexivity. Qed.

Lemma fieldOf_unmarshalInt (i : jmap) (k : string) :
  numberOrNull (index i k) = true ->
  unmarshalInt (index i k) (-1) = Ok (fieldOf i k).
Proof.
  intros H. rewrite (unmarshalInt_numberOrNull _ _ H). unfold fieldOf.
  destruct (index i k); try discriminate; reflexivity.
Qed.

(** C7.  A numeric field that is absent or null decodes to -1 and does
    not fail the decode.  [unmarshalInt] gives -1 for such a field; an
    entry whose times parse and whose [intensity] is an object with a
    string [index] and numbers, nulls or nothing under the numeric keys
    decodes to the record that holds, for each numeric field, its number
    or else -1 (forecast and actual for an intensity, max, average and
    min for statistics).  In particular a body with the single entry
    [{from, to, intensity: {forecast: 50, actual: null, index: low}}]
    decodes to exactly one record, with [Forecast = 50] and
    [Actual = -1]. *)
Theorem missing_numbers_default_to_minus_one
  (ir : intensityResponse) (toString fromString : string) (toTime fromTime : Time) :
  time_Parse natGridTimeFormat toString = Some toTime ->
  time_Parse natGridTimeFormat fromString = Some fromTime ->
  (forall (i : jmap) (k : string),
     lookup k i = None \/ lookup k i = Some JNull ->
     unmarshalInt (index i k) (-1) = Ok (-1) /\ fieldOf i k = -1)
  /\ (forall (e i : jmap) (idx : string),
        index e "to" = JString toString ->
        index e "from" = JString fromString ->
        index e "intensity" = JObject i ->
        index i "index" = JString idx ->
        (forallb (fun k => numberOrNull (index i k)) intensityFields = true ->
         intensityEntry (JObject e)
         = Ok (Some {| iTo := toTime; iFrom := fromTime;
                       Forecast := fieldOf i "forecast";
                       Actual := fieldOf i "actual";
                       iIndex := idx |}))
        /\ (forallb (fun k => numberOrNull (index i k)) statisticsFields = true ->
            statisticsEntry (JObject e)
            = Ok (Some {| sTo := toTime; sFrom := fromTime;
                          Max := fieldOf i "max";
                          Average := fieldOf i "average";
                          Min := fieldOf i "min";
                          sIndex := idx |})))
  /\ intensityResponse_UnmarshalJSON ir
       (bodyOf (envelope
          [period fromString toString
             [("forecast", num 50); ("actual", JNull); ("index", JString "low")]%string]))
     = Ok {| ientries := [ {| iTo := toTime; iFrom := fromTime;
                              Forecast := 50; Actual := -1;
                              iIndex := "low" |} ] |}.
Proof.
  intros Pto Pfrom. split; [| split].
  - intros i k H. apply index_absent_or_null in H. unfold fieldOf. rewrite H.
    split; reflexivity.
  - intros e i idx Hto Hfrom Hint Hidx. split.
    + intros H. simpl in H. rewrite !andb_true_iff in H. destruct H as [Hf [Ha _]].
      unfold intensityEntry. simpl. rewrite Hto. simpl. rewrite Pto.
      rewrite Hfrom. simpl. rewrite Pfrom. rewrite Hint. simpl.
      rewrite (fieldOf_unmarshalInt _ _ Hf). simpl.
      rewrite (fieldOf_unmarshalInt _ _ Ha). simpl.
      rewrite Hidx. reflexivity.
    + intros H. simpl in H. rewrite !andb_true_iff in H.
      destruct H as [Hmax [Havg [Hmin _]]].
      unfold statisticsEntry. simpl. rewrite Hto. simpl. rewrite Pto.
      rewrite Hfrom. simpl. rewrite Pfrom. rewrite Hint. simpl.
      rewrite (fieldOf_unmarshalInt _ _ Hmax). simpl.
      rewrite (fieldOf_unmarshalInt _ _ Havg). simpl.
      rewrite (fieldOf_unmarshalInt _ _ Hmin). simpl.
      rewrite Hidx. reflexivity.
  - unfold intensityResponse_UnmarshalJSON. cbn. rewrite Pto. cbn. rewrite Pfrom.
    reflexivity.
Qed.

Lemma missing_key_not_number (d : jmap) (k : string) :
  In k factorKeys -> lookup k d = None ->
  forallb (fun k => isNumber (index d k)) factorKeys = false.
Proof.
  intros Hin Hmiss.
  destruct (forallb (fun k => isNumber (index d k)) factorKeys) eqn:E; [| reflexivity].
  rewrite forallb_forall in E. specialize (E k Hin).
  unfold index in E. rewrite Hmiss in E. discriminate.
Qed.

(** C4, as amended.  [GetIntensityFactors] wants exactly one entry in
    [data], and reports any other number as an error.  From that entry,
    an object, it reads the fourteen keys by their exact names: when each
    holds a number the decode succeeds and each field holds the number
    under its key, converted to [int]; when a key is missing the decode
    does not succeed, and it does not return an error either: the
    assertion on the missing value panics. *)
Theorem factors_decode_or_panic
  (responseBytes : Body) (decoded : jmap) (entries : list json) :
  json_Unmarshal_map responseBytes = Ok decoded ->
  index decoded "data" = JArray entries ->
  (length entries <> 1%nat ->
   decodeIntensityFactors responseBytes = Err (UnexpectedEntries (raw responseBytes)))
  /\ (forall d, entries = [JObject d] ->
        (forall k, In k factorKeys -> isNumber (index d k) = true) ->
        decodeIntensityFactors responseBytes
        = Ok {| Biomass := factorOf d "Biomass";
                Coal := factorOf d "Coal";
                DutchImports := factorOf d "Dutch Imports";
                FrenchImports := factorOf d "French Imports";
                GasCombinedCycle := factorOf d "Gas (Combined Cycle)";
                GasOpenCycle := factorOf d "Gas (Open Cycle)";
                Hydro := factorOf d "Hydro";
                IrishImports := factorOf d "Irish Imports";
                Nuclear := factorOf d "Nuclear";
                Oil := factorOf d "Oil";
                Other := factorOf d "Other";
                PumpedStorage := factorOf d "Pumped Storage";
                Solar := factorOf d "Solar";
                Wind := factorOf d "Wind" |})
  /\ (forall d k, entries = [JObject d] ->
        In k factorKeys -> lookup k d = None ->
        is_panic (decodeIntensityFactors responseBytes) = true).
Proof.
  intros Hmap Hdata. repeat split.
  - intros Hlen. unfold decodeIntensityFactors. rewrite Hmap. simpl.
    rewrite Hdata. simpl.
    destruct entries as [| entry [| second rest]]; try reflexivity.
    exfalso. apply Hlen. reflexivity.
  - intros d -> Hall.
    pose proof (decodeIntensityFactors_one _ _ _ Hmap Hdata) as Hone.
    assert (E : forallb (fun k => isNumber (index d k)) factorKeys = true)
      by (apply forallb_forall; exact Hall).
    rewrite E in Hone. exact Hone.
  - intros d k -> Hin Hmiss.
    pose proof (decodeIntensityFactors_one _ _ _ Hmap Hdata) as Hone.
    rewrite (missing_key_not_number d k Hin Hmiss) in Hone. exact Hone.
Qed.

(** *** Checks made before the server is queried *)

Lemma thirtyDays_eq : thirtyDays = 2592000000000000.
Proof. reflexivity. Qed.

Lemma Before_lt (t u : Time) : Before t u = true <-> unixNano t < unixNano u.
Proof. unfold Before. apply Z.ltb_lt. Qed.

(** For an earlier [u] the saturation of [Sub] does not change the
    comparison with thirty days. *)
Lemma Sub_thirtyDays (t u : Time) :
  unixNano u < unixNano t ->
  (Hour * 24 * 30 <? Sub t u) = (thirtyDays <? unixNano t - unixNano u).
Proof.
  intros Hlt. change (Hour * 24 * 30) with thirtyDays.
  unfold Sub. rewrite thirtyDays_eq.
  change minInt64 with (-9223372036854775808).
  change maxInt64 with 9223372036854775807.
  destruct (unixNano t - unixNano u <? -9223372036854775808) eqn:E1;
    [apply Z.ltb_lt in E1; lia |].
  destruct (9223372036854775807 <? unixNano t - unixNano u) eqn:E2.
  - apply Z.ltb_lt in E2. symmetry. apply Z.ltb_lt. lia.
  - reflexivity.
Qed.

Lemma requests_fetch_intensity {A : Type} (ah : APIHandler) (resource : string)
  (k : intensityResponse -> Body -> M A) :
  (forall response responseBytes, requests (k response responseBytes) = []) ->
  requests
    (responseBytes <~ getAPIResponse ah resource ;;
     response <~ lift (json_Unmarshal_intensityResponse responseBytes {| ientries := [] |}) ;;
     k response responseBytes)
  = [(serverAddress ah ++ resource)%string].
Proof.
  intros Hk. unfold getAPIResponse, bindM, lift.
  destruct (http_Get (serverAddress ah ++ resource)) as [err | responseBytes];
    [reflexivity |].
  destruct (json_Unmarshal_intensityResponse responseBytes {| ientries := [] |})
    as [response | |]; try reflexivity.
  specialize (Hk response responseBytes).
  destruct (k response responseBytes) as [tr r]. simpl in *. rewrite Hk. reflexivity.
Qed.

Lemma requests_fetch_statistics {A : Type} (ah : APIHandler) (resource : string)
  (k : statisticsResponse -> Body -> M A) :
  (forall response responseBytes, requests (k response responseBytes) = []) ->
  requests
    (responseBytes <~ getAPIResponse ah resource ;;
     response <~ lift (json_Unmarshal_statisticsResponse responseBytes {| sentries := [] |}) ;;
     k response responseBytes)
  = [(serverAddress ah ++ resource)%string].
Proof.
  intros Hk. unfold getAPIResponse, bindM, lift.
  destruct (http_Get (serverAddress ah ++ resource)) as [err | responseBytes];
    [reflexivity |].
  destruct (json_Unmarshal_statisticsResponse responseBytes {| sentries := [] |})
    as [response | |]; try reflexivity.
  specialize (Hk response responseBytes).
  destruct (k response responseBytes) as [tr r]. simpl in *. rewrite Hk. reflexivity.
Qed.

Lemma requests_single {A : Type} (entries : list A) (responseBytes : Body) :
  requests (single entries responseBytes) = [].
Proof. destruct entries as [| e [| e' rest]]; reflexivity. Qed.

(** With a valid range and block size [GetStatisticsInBlocks] makes its
    one request. *)
Lemma GetStatisticsInBlocks_request
  (ah : APIHandler) (from to : Time) (blockSize : Duration) :
  unixNano from < unixNano to ->
  unixNano to - unixNano from <= thirtyDays ->
  1 <= blockHours blockSize <= 24 ->
  requests (GetStatisticsInBlocks ah from to blockSize)
  = [(serverAddress ah ++ "/intensity/stats/"
        ++ time_Format natGridTimeFormat from
        ++ "/" ++ time_Format natGridTimeFormat to
        ++ "/" ++ fmt_d (blockHours blockSize))%string].
Proof.
  intros Hlt Hspan [Hlo Hhi]. unfold GetStatisticsInBlocks.
  assert (E : Before from to = true) by (apply Before_lt; exact Hlt).
  rewrite E, (Sub_thirtyDays _ _ Hlt). simpl negb. cbv iota.
  assert (E' : (thirtyDays <? unixNano to - unixNano from) = false)
    by (apply Z.ltb_ge; exact Hspan).
  rewrite E'. cbv zeta. fold (blockHours blockSize).
  assert (E1 : (blockHours blockSize <? 1) = false) by (apply Z.ltb_ge; lia).
  assert (E2 : (24 <? blockHours blockSize) = false) by (apply Z.ltb_ge; lia).
  rewrite E1, E2. simpl orb. cbv iota.
  apply (requests_fetch_statistics ah _ (fun r _ => ret (sentries r))). reflexivity.
Qed.

(** With a valid range and a block size that is not,
    [GetStatisticsInBlocks] fails on the block size, without a request. *)
Lemma GetStatisticsInBlocks_bad_block
  (ah : APIHandler) (from to : Time) (blockSize : Duration) :
  unixNano from < unixNano to ->
  unixNano to - unixNano from <= thirtyDays ->
  blockHours blockSize < 1 \/ 24 < blockHours blockSize ->
  GetStatisticsInBlocks ah from to blockSize = ([], Err (InvalidBlockSize blockSize)).
Proof.
  intros Hlt Hspan Hbad. unfold GetStatisticsInBlocks.
  assert (E : Before from to = true) by (apply Before_lt; exact Hlt).
  rewrite E, (Sub_thirtyDays _ _ Hlt). simpl negb. cbv iota.
  assert (E' : (thirtyDays <? unixNano to - unixNano from) = false)
    by (apply Z.ltb_ge; exact Hspan).
  rewrite E'. cbv zeta. fold (blockHours blockSize).
  assert (Eb : (blockHours blockSize <? 1) || (24 <? blockHours blockSize) = true).
  { apply orb_true_iff. destruct Hbad; [left | right]; apply Z.ltb_lt; assumption. }
  rewrite Eb. reflexivity.
Qed.

(** C2.  The three operations that take a range check it before they
    query the server.  When [from] is not strictly earlier than [to]
    they fail with the invalid-range error, and when the span is longer
    than thirty days with the range-too-large error, in both cases
    without a request.  When [from] is strictly earlier than [to] and
    the span is at most thirty days the check passes and the one request
    is made ([GetStatisticsInBlocks] goes on to check the block size: it
    makes the request when that is valid too, and else fails on the block
    size, not on the range). *)
Theorem range_is_checked_before_the_request (ah : APIHandler) (from to : Time) :
  (unixNano to <= unixNano from ->
   GetIntensityBetween ah from to = ([], Err (NotStrictlyEarlier from to))
   /\ GetStatistics ah from to = ([], Err (NotStrictlyEarlier from to))
   /\ forall blockSize,
        GetStatisticsInBlocks ah from to blockSize
        = ([], Err (NotStrictlyEarlier from to)))
  /\
  (unixNano from < unixNano to ->
   thirtyDays < unixNano to - unixNano from ->
   GetIntensityBetween ah from to = ([], Err (RangeTooLarge from to))
   /\ GetStatistics ah from to = ([], Err (RangeTooLarge from to))
   /\ forall blockSize,
        GetStatisticsInBlocks ah from to blockSize
        = ([], Err (RangeTooLarge from to)))
  /\
  (unixNano from < unixNano to ->
   unixNano to - unixNano from <= thirtyDays ->
   requests (GetIntensityBetween ah from to)
   = [(serverAddress ah ++ "/intensity/" ++ time_Format natGridTimeFormat from
         ++ "/" ++ time_Format natGridTimeFormat to)%string]
   /\ requests (GetStatistics ah from to)
      = [(serverAddress ah ++ "/intensity/stats/" ++ time_Format natGridTimeFormat from
            ++ "/" ++ time_Format natGridTimeFormat to)%string]
   /\ forall blockSize,
        (1 <= blockHours blockSize <= 24 ->
         requests (GetStatisticsInBlocks ah from to blockSize)
         = [(serverAddress ah ++ "/intensity/stats/"
               ++ time_Format natGridTimeFormat from
               ++ "/" ++ time_Format natGridTimeFormat to
               ++ "/" ++ fmt_d (blockHours blockSize))%string])
        /\ (blockHours blockSize < 1 \/ 24 < blockHours blockSize ->
            GetStatisticsInBlocks ah from to blockSize
            = ([], Err (InvalidBlockSize blockSize)))).
Proof.
  split; [| split].
  - intros Hle. unfold GetIntensityBetween, GetStatistics, GetStatisticsInBlocks.
    assert (E : Before from to = false) by (apply Z.ltb_ge; exact Hle).
    rewrite E. simpl. auto.
  - intros Hlt Hspan. unfold GetIntensityBetween, GetStatistics, GetStatisticsInBlocks.
    assert (E : Before from to = true) by (apply Before_lt; exact Hlt).
    rewrite E, (Sub_thirtyDays _ _ Hlt). simpl.
    assert (E' : (thirtyDays <? unixNano to - unixNano from) = true)
      by (apply Z.ltb_lt; exact Hspan).
    rewrite E'. auto.
  - intros Hlt Hspan.
    assert (E : Before from to = true) by (apply Before_lt; exact Hlt).
    assert (E' : (thirtyDays <? unixNano to - unixNano from) = false)
      by (apply Z.ltb_ge; exact Hspan).
    split; [| split].
    + unfold GetIntensityBetween.
      rewrite E, (Sub_thirtyDays _ _ Hlt), E'. simpl negb. cbv iota.
      apply (requests_fetch_intensity ah _ (fun r _ => ret (ientries r))). reflexivity.
    + unfold GetStatistics.
      rewrite E, (Sub_thirtyDays _ _ Hlt), E'. simpl negb. cbv iota.
      apply (requests_fetch_statistics ah _ (fun r b => single (sentries r) b)).
      intros; apply requests_single.
    + intros blockSize. split.
      * exact (GetStatisticsInBlocks_request ah from to blockSize Hlt Hspan).
      * exact (GetStatisticsInBlocks_bad_block ah from to blockSize Hlt Hspan).
Qed.

(** C5.  [GetIntensityForDayAndSettlementPeriod] checks the settlement
    period before it queries the server: below 1 or above 48 (so for 0
    and for 49) it fails with the invalid-parameter error and makes no
    request; from 1 to 48 the check passes and the one request is made. *)
Theorem settlement_period_is_checked_before_the_request
  (ah : APIHandler) (date : Time) (settlementPeriod : Z) :
  (settlementPeriod < 1 \/ 48 < settlementPeriod ->
   GetIntensityForDayAndSettlementPeriod ah date settlementPeriod
   = ([], Err (InvalidSettlementPeriod settlementPeriod)))
  /\
  (1 <= settlementPeriod <= 48 ->
   requests (GetIntensityForDayAndSettlementPeriod ah date settlementPeriod)
   = [(serverAddress ah ++ datePath date ++ "/" ++ fmt_d settlementPeriod)%string])
  /\ GetIntensityForDayAndSettlementPeriod ah date 0
     = ([], Err (InvalidSettlementPeriod 0))
  /\ GetIntensityForDayAndSettlementPeriod ah date 49
     = ([], Err (InvalidSettlementPeriod 49)).
Proof.
  unfold GetIntensityForDayAndSettlementPeriod.
  split; [| split; [| split; reflexivity]].
  - intros H.
    assert (E : (settlementPeriod <? 1) || (48 <? settlementPeriod) = true).
    { apply orb_true_iff. destruct H; [left | right]; apply Z.ltb_lt; assumption. }
    rewrite E. reflexivity.
  - intros [Hlo Hhi].
    assert (E1 : (settlementPeriod <? 1) = false) by (apply Z.ltb_ge; lia).
    assert (E2 : (48 <? settlementPeriod) = false) by (apply Z.ltb_ge; lia).
    rewrite E1, E2. simpl orb. cbv iota.
    apply (requests_fetch_intensity ah _ (fun r b => single (ientries r) b)).
    intros; apply requests_single.
Qed.

(** C6.  [GetStatisticsInBlocks] takes the whole hours of the block
    size, [int(blockSize.Hours())], and wants them from 1 to 24.
    Otherwise the call fails without a request, and, the range being
    valid, the failure is the invalid-block-size error; with hours from
    1 to 24 and a valid range the one request is made, for that number
    of hours.  3h59m has 3 whole hours and 59m has none; an hour has 1
    and a nanosecond less has none, 25 hours have 25 and a nanosecond
    less has 24. *)
Theorem block_size_is_checked_before_the_request
  (ah : APIHandler) (from to : Time) (blockSize : Duration) :
  (blockHours blockSize < 1 \/ 24 < blockHours blockSize ->
   requests (GetStatisticsInBlocks ah from to blockSize) = []
   /\ is_err (result (GetStatisticsInBlocks ah from to blockSize)) = true
   /\ (unixNano from < unixNano to ->
       unixNano to - unixNano from <= thirtyDays ->
       GetStatisticsInBlocks ah from to blockSize
       = ([], Err (InvalidBlockSize blockSize))))
  /\
  (1 <= blockHours blockSize <= 24 ->
   unixNano from < unixNano to ->
   unixNano to - unixNano from <= thirtyDays ->
   requests (GetStatisticsInBlocks ah from to blockSize)
   = [(serverAddress ah ++ "/intensity/stats/"
         ++ time_Format natGridTimeFormat from
         ++ "/" ++ time_Format natGridTimeFormat to
         ++ "/" ++ fmt_d (blockHours blockSize))%string])
  /\ blockHours (3 * Hour + 59 * Minute) = 3
  /\ blockHours (59 * Minute) = 0
  /\ blockHours (Hour - Nanosecond) = 0
  /\ blockHours Hour = 1
  /\ blockHours (25 * Hour - Nanosecond) = 24
  /\ blockHours (25 * Hour) = 25.
Proof.
  split; [| split; [| repeat split; reflexivity]].
  - intros Hbad.
    assert (E : (blockHours blockSize <? 1) || (24 <? blockHours blockSize) = true).
    { apply orb_true_iff. destruct Hbad; [left | right]; apply Z.ltb_lt; assumption. }
    unfold GetStatisticsInBlocks. cbv zeta. fold (blockHours blockSize). rewrite E.
    destruct (negb (Before from to)) eqn:EB.
    + repeat split. intros Hlt _. apply Before_lt in Hlt. rewrite Hlt in EB. discriminate.
    + destruct (Hour * 24 * 30 <? Sub to from) eqn:ES.
      * repeat split. intros Hlt Hspan. rewrite (Sub_thirtyDays _ _ Hlt) in ES.
        apply Z.ltb_lt in ES. lia.
      * repeat split.
  - intros Hok Hlt Hspan.
    exact (GetStatisticsInBlocks_request ah from to blockSize Hlt Hspan Hok).
Qed.

(** *** Endpoints that return one entry *)

(** C9.  On the endpoints that answer with one entry, when the server
    answers and the answer decodes, the operation fails with the
    unexpected-number-of-entries error unless exactly one entry was
    decoded, and then it returns that entry. *)
Theorem singleton_endpoints_want_one_entry (ah : APIHandler) (responseBytes : Body) :
  (forall url, http_Get url = inr responseBytes) ->
  (forall entries,
     json_Unmarshal_intensityResponse responseBytes {| ientries := [] |}
     = Ok {| ientries := entries |} ->
     forall (time date : Time) (settlementPeriod : Z),
       1 <= settlementPeriod <= 48 ->
       (length entries <> 1%nat ->
        result (GetIntensityForTimePeriod ah time)
        = Err (UnexpectedEntries (raw responseBytes))
        /\ result (GetCurrentIntensity ah)
           = Err (UnexpectedEntries (raw responseBytes))
        /\ result (GetIntensityForDayAndSettlementPeriod ah date settlementPeriod)
           = Err (UnexpectedEntries (raw responseBytes)))
       /\
       (forall entry, entries = [entry] ->
        result (GetIntensityForTimePeriod ah time) = Ok entry
        /\ result (GetCurrentIntensity ah) = Ok entry
        /\ result (GetIntensityForDayAndSettlementPeriod ah date settlementPeriod)
           = Ok entry))
  /\
  (forall entries,
     json_Unmarshal_statisticsResponse responseBytes {| sentries := [] |}
     = Ok {| sentries := entries |} ->
     forall from to : Time,
       unixNano from < unixNano to ->
       unixNano to - unixNano from <= thirtyDays ->
       (length entries <> 1%nat ->
        result (GetStatistics ah from to)
        = Err (UnexpectedEntries (raw responseBytes)))
       /\
       (forall entry, entries = [entry] ->
        result (GetStatistics ah from to) = Ok entry)).
Proof.
  intros Hget. split.
  - intros entries Hdec time date settlementPeriod [Hlo Hhi].
    assert (E1 : (settlementPeriod <? 1) = false) by (apply Z.ltb_ge; lia).
    assert (E2 : (48 <? settlementPeriod) = false) by (apply Z.ltb_ge; lia).
    unfold GetIntensityForTimePeriod, GetCurrentIntensity,
      GetIntensityForDayAndSettlementPeriod, getAPIResponse, bindM, lift, result.
    rewrite E1, E2, !Hget, Hdec. simpl.
    split.
    + intros Hlen. destruct entries as [| e [| e' rest]]; simpl; auto.
      exfalso. apply Hlen. reflexivity.
    + intros entry ->. simpl. auto.
  - intros entries Hdec from to Hlt Hspan.
    assert (E : Before from to = true) by (apply Before_lt; exact Hlt).
    assert (E' : (thirtyDays <? unixNano to - unixNano from) = false)
      by (apply Z.ltb_ge; exact Hspan).
    unfold GetStatistics, getAPIResponse, bindM, lift, result.
    rewrite E, (Sub_thirtyDays _ _ Hlt), E', !Hget, Hdec. simpl.
    split.
    + intros Hlen. destruct entries as [| e [| e' rest]]; simpl; auto.
      exfalso. apply Hlen. reflexivity.
    + intros entry ->. reflexivity.
Qed.

(** *** A time that does not parse *)

Lemma intensityEntry_unparsed (value : json) :
  typedEntry intensityFields value = true ->
  wellFormedEntry intensityFields value = false ->
  intensityEntry value = Ok None.
Proof.
  unfold wellFormedEntry. intros Ht Hw. rewrite Ht in Hw. simpl in Hw.
  unfold typedEntry in Ht. unfold intensityEntry.
  destruct value as [| | | | | e]; try discriminate.
  rewrite !andb_true_iff in Ht. destruct Ht as [[Hto Hfrom] _].
  destruct (assertString_isString _ Hto) as (ts & Ets).
  destruct (assertString_isString _ Hfrom) as (fs & Efs).
  rewrite Ets, Efs in Hw. simpl in Hw. simpl. rewrite Ets. simpl.
  destruct (time_Parse natGridTimeFormat ts) eqn:Pto; [| reflexivity].
  rewrite Efs. simpl.
  destruct (time_Parse natGridTimeFormat fs); [discriminate | reflexivity].
Qed.

Lemma statisticsEntry_unparsed (value : json) :
  typedEntry statisticsFields value = true ->
  wellFormedEntry statisticsFields value = false ->
  statisticsEntry value = Ok None.
Proof.
  unfold wellFormedEntry. intros Ht Hw. rewrite Ht in Hw. simpl in Hw.
  unfold typedEntry in Ht. unfold statisticsEntry.
  destruct value as [| | | | | e]; try discriminate.
  rewrite !andb_true_iff in Ht. destruct Ht as [[Hto Hfrom] _].
  destruct (assertString_isString _ Hto) as (ts & Ets).
  destruct (assertString_isString _ Hfrom) as (fs & Efs).
  rewrite Ets, Efs in Hw. simpl in Hw. simpl. rewrite Ets. simpl.
  destruct (time_Parse natGridTimeFormat ts) eqn:Pto; [| reflexivity].
  rewrite Efs. simpl.
  destruct (time_Parse natGridTimeFormat fs); [discriminate | reflexivity].
Qed.

Lemma intensityLoop_stops (before : list json) (value : json) (rest : list json) :
  forall entries,
    Forall (fun v => exists e, intensityEntry v = Ok (Some e)) before ->
    intensityEntry value = Ok None ->
    exists news,
      intensityLoop (before ++ value :: rest) entries = Ok (entries ++ news)
      /\ length news = length before.
Proof.
  induction before as [| v before IH]; intros entries Hall Hstop.
  - exists []. simpl. rewrite Hstop. simpl. rewrite app_nil_r. auto.
  - inversion Hall as [| ? ? [e He] Hrest]; subst.
    destruct (IH (entries ++ [e]) Hrest Hstop) as (news & Hloop & Hlen).
    exists (e :: news). simpl. rewrite He. simpl. rewrite Hloop.
    rewrite <- app_assoc. simpl. auto.
Qed.

Lemma statisticsLoop_stops (before : list json) (value : json) (rest : list json) :
  forall entries,
    Forall (fun v => exists e, statisticsEntry v = Ok (Some e)) before ->
    statisticsEntry value = Ok None ->
    exists news,
      statisticsLoop (before ++ value :: rest) entries = Ok (entries ++ news)
      /\ length news = length before.
Proof.
  induction before as [| v before IH]; intros entries Hall Hstop.
  - exists []. simpl. rewrite Hstop. simpl. rewrite app_nil_r. auto.
  - inversion Hall as [| ? ? [e He] Hrest]; subst.
    destruct (IH (entries ++ [e]) Hrest Hstop) as (news & Hloop & Hlen).
    exists (e :: news). simpl. rewrite He. simpl. rewrite Hloop.
    rewrite <- app_assoc. simpl. auto.
Qed.

(** C1 (what the code does where the specification wants a parse
    error).  When
    the entries before it are well-formed and an entry holds, as [to] or
    [from], a string that does not parse, both decoders return nil, not
    an error: the receiver is left with the records of the entries before
    that one, and the entries after it are dropped with it. *)
Theorem unparsed_time_is_read_as_success
  (ir : intensityResponse) (sr : statisticsResponse)
  (data : Body) (decoded : jmap) (before : list json) (value : json) (rest : list json) :
  json_Unmarshal_map data = Ok decoded ->
  index decoded "data" = JArray (before ++ value :: rest) ->
  (forallb (wellFormedEntry intensityFields) before = true ->
   typedEntry intensityFields value = true ->
   wellFormedEntry intensityFields value = false ->
   exists entries,
     intensityResponse_UnmarshalJSON ir data = Ok {| ientries := entries |}
     /\ length entries = length before)
  /\
  (forallb (wellFormedEntry statisticsFields) before = true ->
   typedEntry statisticsFields value = true ->
   wellFormedEntry statisticsFields value = false ->
   exists entries,
     statisticsResponse_UnmarshalJSON sr data = Ok {| sentries := entries |}
     /\ length entries = length before).
Proof.
  intros Hmap Hdata. split; intros Hbefore Ht Hw.
  - destruct (intensityLoop_stops before value rest []
                (Forall_wellFormed _ _ _ intensityEntry_wellFormed Hbefore)
                (intensityEntry_unparsed value Ht Hw))
      as (entries & Hloop & Hlen).
    exists entries. unfold intensityResponse_UnmarshalJSON.
    rewrite Hmap. simpl. rewrite Hdata. simpl. rewrite Hloop. auto.
  - destruct (statisticsLoop_stops before value rest []
                (Forall_wellFormed _ _ _ statisticsEntry_wellFormed Hbefore)
                (statisticsEntry_unparsed value Ht Hw))
      as (entries & Hloop & Hlen).
    exists entries. unfold statisticsResponse_UnmarshalJSON.
    rewrite Hmap. simpl. rewrite Hdata. simpl. rewrite Hloop. auto.
Qed.


(* ------------------------------------------------------------------ *)
(** *** The operations and the transport *)

Ltac unfold_ops :=
  unfold GetIntensityForDay, GetIntensityForDayAndSettlementPeriod,
    GetTodaysIntensity, GetIntensityForTimePeriod, GetCurrentIntensity,
    GetIntensityBetween, GetNext24HourIntensity, GetNext48HourIntensity,
    GetPrior24HourIntensity, GetIntensityFactors, GetStatistics,
    GetStatisticsInBlocks.

Lemma period_guard (settlementPeriod : Z) :
  1 <= settlementPeriod <= 48 ->
  (settlementPeriod <? 1) || (48 <? settlementPeriod) = false.
Proof.
  intros [Hlo Hhi]. apply orb_false_iff. split; apply Z.ltb_ge; lia.
Qed.

Lemma range_guard (from to : Time) :
  unixNano from < unixNano to ->
  unixNano to - unixNano from <= thirtyDays ->
  negb (Before from to) = false /\ (Hour * 24 * 30 <? Sub to from) = false.
Proof.
  intros Hlt Hspan. split.
  - apply negb_false_iff, Before_lt, Hlt.
  - rewrite (Sub_thirtyDays _ _ Hlt). apply Z.ltb_ge. exact Hspan.
Qed.

Lemma block_guard (blockSize : Duration) :
  1 <= blockHours blockSize <= 24 ->
  (int_of_float64 (Hours blockSize) <? 1) || (24 <? int_of_float64 (Hours blockSize))
  = false.
Proof.
  unfold blockHours. intros [Hlo Hhi]. apply orb_false_iff.
  split; apply Z.ltb_ge; lia.
Qed.

Lemma requests_GetIntensityFactors (ah : APIHandler) :
  requests (GetIntensityFactors ah) = [(serverAddress ah ++ "/intensity/factors")%string].
Proof.
  unfold GetIntensityFactors, getAPIResponse, bindM, lift.
  destruct (http_Get (serverAddress ah ++ "/intensity/factors")); reflexivity.
Qed.

(** X1.  No operation asks the server twice: whatever the parameters and
    whatever the server answers (a transport error, bytes that do not
    decode, an error envelope, entries), each of the twelve operations
    makes at most one request. *)
Theorem no_operation_asks_twice
  (ah : APIHandler) (date from to : Time) (settlementPeriod : Z) (blockSize : Duration) :
  (length (requests (GetIntensityForDay ah date)) <= 1)%nat
  /\ (length (requests (GetIntensityForDayAndSettlementPeriod ah date settlementPeriod))
      <= 1)%nat
  /\ (length (requests (GetTodaysIntensity ah)) <= 1)%nat
  /\ (length (requests (GetIntensityForTimePeriod ah date)) <= 1)%nat
  /\ (length (requests (GetCurrentIntensity ah)) <= 1)%nat
  /\ (length (requests (GetIntensityBetween ah from to)) <= 1)%nat
  /\ (length (requests (GetNext24HourIntensity ah from)) <= 1)%nat
  /\ (length (requests (GetNext48HourIntensity ah from)) <= 1)%nat
  /\ (length (requests (GetPrior24HourIntensity ah from)) <= 1)%nat
  /\ (length (requests (GetIntensityFactors ah)) <= 1)%nat
  /\ (length (requests (GetStatistics ah from to)) <= 1)%nat
  /\ (length (requests (GetStatisticsInBlocks ah from to blockSize)) <= 1)%nat.
Proof.
  assert (Hret : forall (r : intensityResponse) (b : Body),
             requests (ret (ientries r)) = []) by reflexivity.
  assert (Hrets : forall (r : statisticsResponse) (b : Body),
             requests (ret (sentries r)) = []) by reflexivity.
  assert (Hone : forall (r : intensityResponse) (b : Body),
             requests (single (ientries r) b) = [])
    by (intros; apply requests_single).
  assert (Hones : forall (r : statisticsResponse) (b : Body),
             requests (single (sentries r) b) = [])
    by (intros; apply requests_single).
  repeat split.
  - unfold_ops.
    rewrite (requests_fetch_intensity ah _ (fun r _ => ret (ientries r)) Hret).
    simpl; lia.
  - unfold_ops.
    destruct ((settlementPeriod <? 1) || (48 <? settlementPeriod)); [simpl; lia |].
    rewrite (requests_fetch_intensity ah _ (fun r b => single (ientries r) b) Hone).
    simpl; lia.
  - unfold_ops.
    rewrite (requests_fetch_intensity ah _ (fun r _ => ret (ientries r)) Hret).
    simpl; lia.
  - unfold_ops.
    rewrite (requests_fetch_intensity ah _ (fun r b => single (ientries r) b) Hone).
    simpl; lia.
  - unfold_ops.
    rewrite (requests_fetch_intensity ah _ (fun r b => single (ientries r) b) Hone).
    simpl; lia.
  - unfold_ops.
    destruct (negb (Before from to)); [simpl; lia |].
    destruct (Hour * 24 * 30 <? Sub to from); [simpl; lia |].
    rewrite (requests_fetch_intensity ah _ (fun r _ => ret (ientries r)) Hret).
    simpl; lia.
  - unfold_ops.
    rewrite (requests_fetch_intensity ah _ (fun r _ => ret (ientries r)) Hret).
    simpl; lia.
  - unfold_ops.
    rewrite (requests_fetch_intensity ah _ (fun r _ => ret (ientries r)) Hret).
    simpl; lia.
  - unfold_ops.
    rewrite (requests_fetch_intensity ah _ (fun r _ => ret (ientries r)) Hret).
    simpl; lia.
  - rewrite requests_GetIntensityFactors. simpl; lia.
  - unfold_ops.
    destruct (negb (Before from to)); [simpl; lia |].
    destruct (Hour * 24 * 30 <? Sub to from); [simpl; lia |].
    rewrite (requests_fetch_statistics ah _ (fun r b => single (sentries r) b) Hones).
    simpl; lia.
  - unfold_ops.
    destruct (negb (Before from to)); [simpl; lia |].
    destruct (Hour * 24 * 30 <? Sub to from); [simpl; lia |].
    cbv zeta.
    destruct ((int_of_float64 (Hours blockSize) <? 1)
              || (24 <? int_of_float64 (Hours blockSize))); [simpl; lia |].
    rewrite (requests_fetch_statistics ah _ (fun r _ => ret (sentries r)) Hrets).
    simpl; lia.
Qed.

(** X2.  The operations that check no parameter always make their one
    request, whatever the server answers, and this is the resource each
    asks for: for a day, [/intensity/date/] and then the year of the
    date in four digits, its month in two and its day in two, with a
    hyphen between them; the time in the fixed layout for a period and
    for the three windows; and a fixed path for today, now and the
    factors. *)
Theorem unchecked_operations_ask_once
  (ah : APIHandler) (date time from : Time) (year month day : Z) :
  time_Date date = (year, month, day) ->
  requests (GetIntensityForDay ah date)
  = [(serverAddress ah ++ "/intensity/date/" ++ fmt_0d 4 year
        ++ "-" ++ fmt_0d 2 month ++ "-" ++ fmt_0d 2 day)%string]
  /\ requests (GetTodaysIntensity ah)
     = [(serverAddress ah ++ "/intensity/date")%string]
  /\ requests (GetIntensityForTimePeriod ah time)
     = [(serverAddress ah ++ "/intensity/" ++ time_Format natGridTimeFormat time)%string]
  /\ requests (GetCurrentIntensity ah)
     = [(serverAddress ah ++ "/intensity")%string]
  /\ requests (GetNext24HourIntensity ah from)
     = [(serverAddress ah ++ "/intensity/" ++ time_Format natGridTimeFormat from
           ++ "/fw24h")%string]
  /\ requests (GetNext48HourIntensity ah from)
     = [(serverAddress ah ++ "/intensity/" ++ time_Format natGridTimeFormat from
           ++ "/fw48h")%string]
  /\ requests (GetPrior24HourIntensity ah from)
     = [(serverAddress ah ++ "/intensity/" ++ time_Format natGridTimeFormat from
           ++ "/pt24h")%string]
  /\ requests (GetIntensityFactors ah)
     = [(serverAddress ah ++ "/intensity/factors")%string].
Proof.
  intros Hdate.
  assert (Hpath : datePath date
                  = ("/intensity/date/" ++ fmt_0d 4 year
                       ++ "-" ++ fmt_0d 2 month ++ "-" ++ fmt_0d 2 day)%string)
    by (unfold datePath; rewrite Hdate; reflexivity).
  rewrite <- Hpath.
  repeat split; try apply requests_GetIntensityFactors; unfold_ops;
    first [ apply (requests_fetch_intensity ah _ (fun r _ => ret (ientries r)));
            reflexivity
          | apply (requests_fetch_intensity ah _ (fun r b => single (ientries r) b));
            intros; apply requests_single ].
Qed.

(** What an operation returns once the server has answered: the outcome
    of the decode, then of what the operation does with the response. *)
Lemma result_fetch_intensity {A : Type} (ah : APIHandler) (resource : string)
  (k : intensityResponse -> Body -> M A) (b : Body) :
  http_Get (serverAddress ah ++ resource) = inr b ->
  result
    (responseBytes <~ getAPIResponse ah resource ;;
     response <~ lift (json_Unmarshal_intensityResponse responseBytes {| ientries := [] |}) ;;
     k response responseBytes)
  = (response <- json_Unmarshal_intensityResponse b {| ientries := [] |} ;;
     result (k response b)).
Proof.
  intros Hget. unfold getAPIResponse, bindM, lift, result. rewrite Hget.
  destruct (json_Unmarshal_intensityResponse b {| ientries := [] |}) as [r | |];
    try reflexivity.
  simpl. destruct (k r b); reflexivity.
Qed.

Lemma result_fetch_statistics {A : Type} (ah : APIHandler) (resource : string)
  (k : statisticsResponse -> Body -> M A) (b : Body) :
  http_Get (serverAddress ah ++ resource) = inr b ->
  result
    (responseBytes <~ getAPIResponse ah resource ;;
     response <~ lift (json_Unmarshal_statisticsResponse responseBytes {| sentries := [] |}) ;;
     k response responseBytes)
  = (response <- json_Unmarshal_statisticsResponse b {| sentries := [] |} ;;
     result (k response b)).
Proof.
  intros Hget. unfold getAPIResponse, bindM, lift, result. rewrite Hget.
  destruct (json_Unmarshal_statisticsResponse b {| sentries := [] |}) as [r | |];
    try reflexivity.
  simpl. destruct (k r b); reflexivity.
Qed.

Lemma result_fetch_failed {B : Type} (ah : APIHandler) (resource : string)
  (k : Body -> M B) (e : error) :
  http_Get (serverAddress ah ++ resource) = inl e ->
  result (responseBytes <~ getAPIResponse ah resource ;; k responseBytes) = Err e.
Proof.
  intros Hget. unfold getAPIResponse, bindM, result. rewrite Hget. reflexivity.
Qed.

(** X3.  An error of the transport is handed to the caller as it is.
    When the server cannot be reached, every operation whose parameters
    pass its checks returns the transport's own error. *)
Theorem transport_error_is_returned_unchanged
  (ah : APIHandler) (e : error) (date time from to : Time)
  (settlementPeriod : Z) (blockSize : Duration) :
  (forall url, http_Get url = inl e) ->
  Forall (fun op => result op = Err e) (uncheckedLists ah date from)
  /\ Forall (fun op => result op = Err e) (uncheckedSingles ah time)
  /\ result (GetIntensityFactors ah) = Err e
  /\ (1 <= settlementPeriod <= 48 ->
      result (GetIntensityForDayAndSettlementPeriod ah date settlementPeriod) = Err e)
  /\ (unixNano from < unixNano to ->
      unixNano to - unixNano from <= thirtyDays ->
      result (GetIntensityBetween ah from to) = Err e
      /\ result (GetStatistics ah from to) = Err e
      /\ (1 <= blockHours blockSize <= 24 ->
          result (GetStatisticsInBlocks ah from to blockSize) = Err e)).
Proof.
  intros Hget.
  split; [| split; [| split; [| split]]].
  - repeat constructor; unfold_ops;
      apply result_fetch_failed; apply Hget.
  - repeat constructor; unfold_ops;
      apply result_fetch_failed; apply Hget.
  - unfold_ops. apply result_fetch_failed; apply Hget.
  - intros Hp. unfold_ops. rewrite (period_guard _ Hp).
    apply result_fetch_failed; apply Hget.
  - intros Hlt Hspan. destruct (range_guard from to Hlt Hspan) as [E1 E2].
    unfold_ops. rewrite E1, E2. repeat split.
    + apply result_fetch_failed; apply Hget.
    + apply result_fetch_failed; apply Hget.
    + intros Hb. cbv zeta. rewrite (block_guard _ Hb).
      apply result_fetch_failed; apply Hget.
Qed.

(** Once the top level decoded to a map, the methods are reached. *)
Lemma parsed_of_map (b : Body) (decoded : jmap) :
  json_Unmarshal_map b = Ok decoded -> exists v, parsed b = Some v.
Proof.
  unfold json_Unmarshal_map. destruct (parsed b) as [v |]; [eauto | discriminate].
Qed.

Lemma reach_intensityResponse (b : Body) (decoded : jmap) (ir : intensityResponse) :
  json_Unmarshal_map b = Ok decoded ->
  json_Unmarshal_intensityResponse b ir
  = intensityResponse_UnmarshalJSON ir (valueBytes b)
  /\ json_Unmarshal_map (valueBytes b) = Ok decoded.
Proof.
  intros Hmap. destruct (parsed_of_map _ _ Hmap) as (v & Hv).
  unfold json_Unmarshal_intensityResponse. rewrite Hv. split; [reflexivity | exact Hmap].
Qed.

Lemma reach_statisticsResponse (b : Body) (decoded : jmap) (sr : statisticsResponse) :
  json_Unmarshal_map b = Ok decoded ->
  json_Unmarshal_statisticsResponse b sr
  = statisticsResponse_UnmarshalJSON sr (valueBytes b)
  /\ json_Unmarshal_map (valueBytes b) = Ok decoded.
Proof.
  intros Hmap. destruct (parsed_of_map _ _ Hmap) as (v & Hv).
  unfold json_Unmarshal_statisticsResponse. rewrite Hv. split; [reflexivity | exact Hmap].
Qed.

(** When the three decoders fail alike on the body the server sends,
    every operation whose parameters pass its checks fails so. *)
Lemma operations_return_the_decode_error
  (ah : APIHandler) (b : Body) (e : error) (date time from to : Time)
  (settlementPeriod : Z) (blockSize : Duration) :
  (forall url, http_Get url = inr b) ->
  json_Unmarshal_intensityResponse b {| ientries := [] |} = Err e ->
  json_Unmarshal_statisticsResponse b {| sentries := [] |} = Err e ->
  decodeIntensityFactors b = Err e ->
  Forall (fun op => result op = Err e) (uncheckedLists ah date from)
  /\ Forall (fun op => result op = Err e) (uncheckedSingles ah time)
  /\ result (GetIntensityFactors ah) = Err e
  /\ (1 <= settlementPeriod <= 48 ->
      result (GetIntensityForDayAndSettlementPeriod ah date settlementPeriod) = Err e)
  /\ (unixNano from < unixNano to ->
      unixNano to - unixNano from <= thirtyDays ->
      result (GetIntensityBetween ah from to) = Err e
      /\ result (GetStatistics ah from to) = Err e
      /\ (1 <= blockHours blockSize <= 24 ->
          result (GetStatisticsInBlocks ah from to blockSize) = Err e)).
Proof.
  intros Hget Hi Hs Hf.
  assert (Li : forall {A : Type} resource (k : intensityResponse -> Body -> M A),
             result
               (responseBytes <~ getAPIResponse ah resource ;;
                response <~ lift (json_Unmarshal_intensityResponse responseBytes
                                    {| ientries := [] |}) ;;
                k response responseBytes) = Err e).
  { intros A resource k. rewrite (result_fetch_intensity ah resource k b (Hget _)).
    rewrite Hi. reflexivity. }
  assert (Ls : forall {A : Type} resource (k : statisticsResponse -> Body -> M A),
             result
               (responseBytes <~ getAPIResponse ah resource ;;
                response <~ lift (json_Unmarshal_statisticsResponse responseBytes
                                    {| sentries := [] |}) ;;
                k response responseBytes) = Err e).
  { intros A resource k. rewrite (result_fetch_statistics ah resource k b (Hget _)).
    rewrite Hs. reflexivity. }
  split; [| split; [| split; [| split]]].
  - repeat constructor; unfold_ops;
      apply (Li _ _ (fun r _ => ret (ientries r))).
  - repeat constructor; unfold_ops;
      apply (Li _ _ (fun r b' => single (ientries r) b')).
  - unfold_ops. unfold getAPIResponse, bindM, lift, result. rewrite Hget. exact Hf.
  - intros Hp. unfold_ops. rewrite (period_guard _ Hp).
    apply (Li _ _ (fun r b' => single (ientries r) b')).
  - intros Hlt Hspan. destruct (range_guard from to Hlt Hspan) as [E1 E2].
    unfold_ops. rewrite E1, E2. repeat split.
    + apply (Li _ _ (fun r _ => ret (ientries r))).
    + apply (Ls _ _ (fun r b' => single (sentries r) b')).
    + intros Hb. cbv zeta. rewrite (block_guard _ Hb).
      apply (Ls _ _ (fun r _ => ret (sentries r))).
Qed.

(** X4.  Bytes that are not JSON, or whose top level is an array, a
    string, a number or a boolean, give no result and no panic: every
    operation whose parameters pass its checks returns the error of
    [encoding/json], a syntax error in the first case and a type error
    in the second. *)
Theorem undecodable_bodies_are_errors
  (ah : APIHandler) (b : Body) (date time from to : Time)
  (settlementPeriod : Z) (blockSize : Duration) :
  (forall url, http_Get url = inr b) ->
  forall e,
    (parsed b = None /\ e = SyntaxError)
    \/ (exists v, parsed b = Some v /\ notObject v = true /\ e = UnmarshalTypeError) ->
    Forall (fun op => result op = Err e) (uncheckedLists ah date from)
    /\ Forall (fun op => result op = Err e) (uncheckedSingles ah time)
    /\ result (GetIntensityFactors ah) = Err e
    /\ (1 <= settlementPeriod <= 48 ->
        result (GetIntensityForDayAndSettlementPeriod ah date settlementPeriod) = Err e)
    /\ (unixNano from < unixNano to ->
        unixNano to - unixNano from <= thirtyDays ->
        result (GetIntensityBetween ah from to) = Err e
        /\ result (GetStatistics ah from to) = Err e
        /\ (1 <= blockHours blockSize <= 24 ->
            result (GetStatisticsInBlocks ah from to blockSize) = Err e)).
Proof.
  intros Hget e Hbody.
  apply (operations_return_the_decode_error ah b e); try exact Hget;
    unfold json_Unmarshal_intensityResponse, json_Unmarshal_statisticsResponse,
      intensityResponse_UnmarshalJSON, statisticsResponse_UnmarshalJSON,
      decodeIntensityFactors, json_Unmarshal_map, valueBytes; simpl;
    destruct Hbody as [[-> ->] | (v & -> & Hv & ->)]; try reflexivity;
    destruct v; try discriminate; reflexivity.
Qed.

(** X5.  An error envelope reaches the caller of every operation.  When
    the server answers with a body that has no [data] and whose [error]
    is an object with a string [code] and a string [message], every
    operation whose parameters pass its checks returns the API error
    with that code and message. *)
Theorem api_error_reaches_the_caller
  (ah : APIHandler) (b : Body) (decoded errorMap : jmap) (code message : string)
  (date time from to : Time) (settlementPeriod : Z) (blockSize : Duration) :
  (forall url, http_Get url = inr b) ->
  json_Unmarshal_map b = Ok decoded ->
  index decoded "data" = JNull ->
  index decoded "error" = JObject errorMap ->
  index errorMap "code" = JString code ->
  index errorMap "message" = JString message ->
  Forall (fun op => result op = Err (APIError code message)) (uncheckedLists ah date from)
  /\ Forall (fun op => result op = Err (APIError code message)) (uncheckedSingles ah time)
  /\ result (GetIntensityFactors ah) = Err (APIError code message)
  /\ (1 <= settlementPeriod <= 48 ->
      result (GetIntensityForDayAndSettlementPeriod ah date settlementPeriod)
      = Err (APIError code message))
  /\ (unixNano from < unixNano to ->
      unixNano to - unixNano from <= thirtyDays ->
      result (GetIntensityBetween ah from to) = Err (APIError code message)
      /\ result (GetStatistics ah from to) = Err (APIError code message)
      /\ (1 <= blockHours blockSize <= 24 ->
          result (GetStatisticsInBlocks ah from to blockSize)
          = Err (APIError code message))).
Proof.
  intros Hget Hmap Hdata Herror Hcode Hmessage.
  apply (operations_return_the_decode_error ah b (APIError code message));
    try exact Hget.
  - destruct (reach_intensityResponse b decoded {| ientries := [] |} Hmap) as [-> Hmap'].
    unfold intensityResponse_UnmarshalJSON. rewrite Hmap'. simpl.
    rewrite Hdata, Herror. simpl. rewrite Hcode, Hmessage. reflexivity.
  - destruct (reach_statisticsResponse b decoded {| sentries := [] |} Hmap) as [-> Hmap'].
    unfold statisticsResponse_UnmarshalJSON. rewrite Hmap'. simpl.
    rewrite Hdata, Herror. simpl. rewrite Hcode, Hmessage. reflexivity.
  - unfold decodeIntensityFactors. rewrite Hmap. simpl.
    rewrite Hdata, Herror. simpl. rewrite Hcode, Hmessage. reflexivity.
Qed.

(** When the body the server sends decodes, the operations that return a
    list return the decoded list, and those that return one entry
    return what [single] makes of it. *)
Lemma operations_return_the_decoded_intensities
  (ah : APIHandler) (b : Body) (entries : list Intensity) (date time from to : Time)
  (settlementPeriod : Z) :
  (forall url, http_Get url = inr b) ->
  json_Unmarshal_intensityResponse b {| ientries := [] |} = Ok {| ientries := entries |} ->
  Forall (fun op => result op = Ok entries) (uncheckedLists ah date from)
  /\ Forall (fun op => result op = result (single entries b)) (uncheckedSingles ah time)
  /\ (1 <= settlementPeriod <= 48 ->
      result (GetIntensityForDayAndSettlementPeriod ah date settlementPeriod)
      = result (single entries b))
  /\ (unixNano from < unixNano to ->
      unixNano to - unixNano from <= thirtyDays ->
      result (GetIntensityBetween ah from to) = Ok entries).
Proof.
  intros Hget Hi.
  assert (Li : forall {A : Type} resource (k : intensityResponse -> Body -> M A),
             result
               (responseBytes <~ getAPIResponse ah resource ;;
                response <~ lift (json_Unmarshal_intensityResponse responseBytes
                                    {| ientries := [] |}) ;;
                k response responseBytes)
             = result (k {| ientries := entries |} b)).
  { intros A resource k. rewrite (result_fetch_intensity ah resource k b (Hget _)).
    rewrite Hi. reflexivity. }
  split; [| split; [| split]].
  - repeat constructor; unfold_ops;
      apply (Li _ _ (fun r _ => ret (ientries r))).
  - repeat constructor; unfold_ops;
      apply (Li _ _ (fun r b' => single (ientries r) b')).
  - intros Hp. unfold_ops. rewrite (period_guard _ Hp).
    apply (Li _ _ (fun r b' => single (ientries r) b')).
  - intros Hlt Hspan. destruct (range_guard from to Hlt Hspan) as [E1 E2].
    unfold_ops. rewrite E1, E2.
    apply (Li _ _ (fun r _ => ret (ientries r))).
Qed.

Lemma operations_return_the_decoded_statistics
  (ah : APIHandler) (b : Body) (entries : list Statistics) (from to : Time)
  (blockSize : Duration) :
  (forall url, http_Get url = inr b) ->
  json_Unmarshal_statisticsResponse b {| sentries := [] |} = Ok {| sentries := entries |} ->
  unixNano from < unixNano to ->
  unixNano to - unixNano from <= thirtyDays ->
  result (GetStatistics ah from to) = result (single entries b)
  /\ (1 <= blockHours blockSize <= 24 ->
      result (GetStatisticsInBlocks ah from to blockSize) = Ok entries).
Proof.
  intros Hget Hs Hlt Hspan.
  destruct (range_guard from to Hlt Hspan) as [E1 E2].
  unfold_ops. rewrite E1, E2. split.
  - rewrite (result_fetch_statistics ah _ (fun r b' => single (sentries r) b') b (Hget _)).
    rewrite Hs. reflexivity.
  - intros Hb. cbv zeta. rewrite (block_guard _ Hb).
    rewrite (result_fetch_statistics ah _ (fun r _ => ret (sentries r)) b (Hget _)).
    rewrite Hs. reflexivity.
Qed.

(** X6.  An empty [data] array is a success for the decoders.  The
    operations that return a list then return the empty list without an
    error, while those that want one entry ([GetIntensityForTimePeriod],
    [GetCurrentIntensity], [GetIntensityForDayAndSettlementPeriod],
    [GetStatistics]) and [GetIntensityFactors] fail with the
    unexpected-number-of-entries error, which holds the body as it was
    received. *)
Theorem empty_data_is_an_empty_list_or_an_error
  (ah : APIHandler) (b : Body) (decoded : jmap) (date time from to : Time)
  (settlementPeriod : Z) (blockSize : Duration) :
  (forall url, http_Get url = inr b) ->
  json_Unmarshal_map b = Ok decoded ->
  index decoded "data" = JArray [] ->
  Forall (fun op => result op = Ok []) (uncheckedLists ah date from)
  /\ Forall (fun op => result op = Err (UnexpectedEntries (raw b)))
       (uncheckedSingles ah time)
  /\ result (GetIntensityFactors ah) = Err (UnexpectedEntries (raw b))
  /\ (1 <= settlementPeriod <= 48 ->
      result (GetIntensityForDayAndSettlementPeriod ah date settlementPeriod)
      = Err (UnexpectedEntries (raw b)))
  /\ (unixNano from < unixNano to ->
      unixNano to - unixNano from <= thirtyDays ->
      result (GetIntensityBetween ah from to) = Ok []
      /\ result (GetStatistics ah from to) = Err (UnexpectedEntries (raw b))
      /\ (1 <= blockHours blockSize <= 24 ->
          result (GetStatisticsInBlocks ah from to blockSize) = Ok [])).
Proof.
  intros Hget Hmap Hdata.
  assert (Hi : json_Unmarshal_intensityResponse b {| ientries := [] |}
               = Ok {| ientries := [] |}).
  { destruct (reach_intensityResponse b decoded {| ientries := [] |} Hmap) as [-> Hmap'].
    unfold intensityResponse_UnmarshalJSON. rewrite Hmap'. simpl. rewrite Hdata.
    reflexivity. }
  assert (Hs : json_Unmarshal_statisticsResponse b {| sentries := [] |}
               = Ok {| sentries := [] |}).
  { destruct (reach_statisticsResponse b decoded {| sentries := [] |} Hmap) as [-> Hmap'].
    unfold statisticsResponse_UnmarshalJSON. rewrite Hmap'. simpl. rewrite Hdata.
    reflexivity. }
  destruct (operations_return_the_decoded_intensities ah b [] date time from to
              settlementPeriod Hget Hi) as (Hl & H1 & Hp & Hb).
  split; [exact Hl | split; [exact H1 | split; [| split; [exact Hp |]]]].
  - unfold_ops. unfold getAPIResponse, bindM, lift, result. rewrite Hget.
    unfold decodeIntensityFactors. rewrite Hmap. simpl. rewrite Hdata. reflexivity.
  - intros Hlt Hspan.
    destruct (operations_return_the_decoded_statistics ah b [] from to blockSize
                Hget Hs Hlt Hspan) as (Hst & Hbl).
    split; [exact (Hb Hlt Hspan) | split; [exact Hst | exact Hbl]].
Qed.

(** X7.  The operations that return a list return a record for every
    entry the server sent, in the order it sent them, when the entries
    are well-formed: the list has the length of the [data] array and its
    i-th record is the one decoded from the i-th entry. *)
Theorem list_operations_return_every_entry
  (ah : APIHandler) (b : Body) (decoded : jmap) (decodedData : list json)
  (date from to : Time) (blockSize : Duration) :
  (forall url, http_Get url = inr b) ->
  json_Unmarshal_map b = Ok decoded ->
  index decoded "data" = JArray decodedData ->
  (forallb (wellFormedEntry intensityFields) decodedData = true ->
   exists entries,
     Forall2 (fun v e => intensityEntry v = Ok (Some e)) decodedData entries
     /\ Forall (fun op => result op = Ok entries) (uncheckedLists ah date from)
     /\ (unixNano from < unixNano to ->
         unixNano to - unixNano from <= thirtyDays ->
         result (GetIntensityBetween ah from to) = Ok entries))
  /\
  (forallb (wellFormedEntry statisticsFields) decodedData = true ->
   unixNano from < unixNano to ->
   unixNano to - unixNano from <= thirtyDays ->
   1 <= blockHours blockSize <= 24 ->
   exists entries,
     Forall2 (fun v e => statisticsEntry v = Ok (Some e)) decodedData entries
     /\ result (GetStatisticsInBlocks ah from to blockSize) = Ok entries).
Proof.
  intros Hget Hmap Hdata. split.
  - intros Hwf.
    destruct (intensityLoop_all decodedData []
                (Forall_wellFormed _ _ _ intensityEntry_wellFormed Hwf))
      as (entries & Hloop & Hall).
    assert (Hi : json_Unmarshal_intensityResponse b {| ientries := [] |}
                 = Ok {| ientries := entries |}).
    { destruct (reach_intensityResponse b decoded {| ientries := [] |} Hmap)
        as [-> Hmap'].
      unfold intensityResponse_UnmarshalJSON. rewrite Hmap'. simpl. rewrite Hdata.
      simpl. rewrite Hloop. reflexivity. }
    destruct (operations_return_the_decoded_intensities ah b entries date date from to
                1 Hget Hi) as (Hl & _ & _ & Hb).
    exists entries. auto.
  - intros Hwf Hlt Hspan Hblock.
    destruct (statisticsLoop_all decodedData []
                (Forall_wellFormed _ _ _ statisticsEntry_wellFormed Hwf))
      as (entries & Hloop & Hall).
    assert (Hs : json_Unmarshal_statisticsResponse b {| sentries := [] |}
                 = Ok {| sentries := entries |}).
    { destruct (reach_statisticsResponse b decoded {| sentries := [] |} Hmap)
        as [-> Hmap'].
      unfold statisticsResponse_UnmarshalJSON. rewrite Hmap'. simpl. rewrite Hdata.
      simpl. rewrite Hloop. reflexivity. }
    destruct (operations_return_the_decoded_statistics ah b entries from to blockSize
                Hget Hs Hlt Hspan) as (_ & Hbl).
    exists entries. auto.
Qed.

(* ------------------------------------------------------------------ *)
(** *** What the decoders keep of any body *)

Lemma intensityLoop_prefix (decodedData : list json) :
  forall entries out,
    intensityLoop decodedData entries = Ok out ->
    exists news,
      out = entries ++ news
      /\ Forall2 (fun v e => intensityEntry v = Ok (Some e))
           (firstn (length news) decodedData) news
      /\ (length news <= length decodedData)%nat
      /\ (forall v, nth_error decodedData (length news) = Some v ->
                    intensityEntry v = Ok None).
Proof.
  induction decodedData as [| value rest IH]; intros entries out Hloop.
  - simpl in Hloop. injection Hloop as <-. exists []. rewrite app_nil_r.
    repeat split; try constructor. intros v Hv. discriminate.
  - simpl in Hloop.
    destruct (intensityEntry value) as [[e |] | |] eqn:He; simpl in Hloop;
      try discriminate.
    + destruct (IH _ _ Hloop) as (news & -> & Hall & Hlen & Hnext).
      exists (e :: news). rewrite <- app_assoc. simpl.
      repeat split; [constructor; assumption | lia | exact Hnext].
    + injection Hloop as <-. exists []. rewrite app_nil_r. simpl.
      repeat split; [constructor | lia |].
      intros v Hv. injection Hv as <-. exact He.
Qed.

Lemma statisticsLoop_prefix (decodedData : list json) :
  forall entries out,
    statisticsLoop decodedData entries = Ok out ->
    exists news,
      out = entries ++ news
      /\ Forall2 (fun v e => statisticsEntry v = Ok (Some e))
           (firstn (length news) decodedData) news
      /\ (length news <= length decodedData)%nat
      /\ (forall v, nth_error decodedData (length news) = Some v ->
                    statisticsEntry v = Ok None).
Proof.
  induction decodedData as [| value rest IH]; intros entries out Hloop.
  - simpl in Hloop. injection Hloop as <-. exists []. rewrite app_nil_r.
    repeat split; try constructor. intros v Hv. discriminate.
  - simpl in Hloop.
    destruct (statisticsEntry value) as [[e |] | |] eqn:He; simpl in Hloop;
      try discriminate.
    + destruct (IH _ _ Hloop) as (news & -> & Hall & Hlen & Hnext).
      exists (e :: news). rewrite <- app_assoc. simpl.
      repeat split; [constructor; assumption | lia | exact Hnext].
    + injection Hloop as <-. exists []. rewrite app_nil_r. simpl.
      repeat split; [constructor | lia |].
      intros v Hv. injection Hv as <-. exact He.
Qed.

(** X8.  Whatever the body, when a decoder succeeds on a [data] array
    its records are those of the first entries of the array, one record
    for each and in the same order: no entry is skipped in the middle,
    none is decoded twice and none is reordered.  The list is shorter
    than the array only when the entry that follows the last record
    holds a time that does not parse. *)
Theorem decoded_records_are_a_prefix_of_data
  (ir : intensityResponse) (sr : statisticsResponse)
  (data : Body) (decoded : jmap) (decodedData : list json) :
  json_Unmarshal_map data = Ok decoded ->
  index decoded "data" = JArray decodedData ->
  (forall entries,
     intensityResponse_UnmarshalJSON ir data = Ok {| ientries := entries |} ->
     (length entries <= length decodedData)%nat
     /\ Forall2 (fun v e => intensityEntry v = Ok (Some e))
          (firstn (length entries) decodedData) entries
     /\ (forall v, nth_error decodedData (length entries) = Some v ->
                   intensityEntry v = Ok None))
  /\
  (forall entries,
     statisticsResponse_UnmarshalJSON sr data = Ok {| sentries := entries |} ->
     (length entries <= length decodedData)%nat
     /\ Forall2 (fun v e => statisticsEntry v = Ok (Some e))
          (firstn (length entries) decodedData) entries
     /\ (forall v, nth_error decodedData (length entries) = Some v ->
                   statisticsEntry v = Ok None)).
Proof.
  intros Hmap Hdata. split; intros entries Hdec.
  - unfold intensityResponse_UnmarshalJSON in Hdec. rewrite Hmap in Hdec.
    simpl in Hdec. rewrite Hdata in Hdec. simpl in Hdec.
    destruct (intensityLoop decodedData []) as [out | |] eqn:Hloop; try discriminate.
    simpl in Hdec. injection Hdec as ->.
    destruct (intensityLoop_prefix _ _ _ Hloop) as (news & -> & Hall & Hlen & Hnext).
    simpl. auto.
  - unfold statisticsResponse_UnmarshalJSON in Hdec. rewrite Hmap in Hdec.
    simpl in Hdec. rewrite Hdata in Hdec. simpl in Hdec.
    destruct (statisticsLoop decodedData []) as [out | |] eqn:Hloop; try discriminate.
    simpl in Hdec. injection Hdec as ->.
    destruct (statisticsLoop_prefix _ _ _ Hloop) as (news & -> & Hall & Hlen & Hnext).
    simpl. auto.
Qed.

(** A numeric field decodes or, being neither a number nor null, makes
    [unmarshalInt] panic. *)
Lemma unmarshalInt_cases (v : json) (d : Z) :
  (exists z, unmarshalInt v d = Ok z /\ numberOrNull v = true)
  \/ (exists p, unmarshalInt v d = Panic p /\ numberOrNull v = false).
Proof. destruct v; simpl; eauto. Qed.

Ltac read_int v :=
  let H := fresh "Hint" in
  let z := fresh "z" in
  let p := fresh "p" in
  destruct (unmarshalInt_cases v (-1)) as [(z & -> & H) | (p & -> & H)]; simpl;
  [rewrite H in * | reflexivity].

Lemma intensityEntry_faulty (value : json) :
  wellFormedEntry intensityFields value = false ->
  match value with
  | JObject e => parses (index e "to") && parses (index e "from")
  | _ => true
  end = true ->
  is_panic (intensityEntry value) = true.
Proof.
  unfold wellFormedEntry, typedEntry, intensityEntry.
  destruct value as [| | | | | e]; try reflexivity.
  intros Hw Hp. rewrite Hp, andb_true_r in Hw.
  apply andb_prop in Hp. destruct Hp as [Pto Pfrom].
  destruct (parses_Some _ Pto) as (ts & tt & Ets & Ept).
  destruct (parses_Some _ Pfrom) as (fs & ft & Efs & Epf).
  rewrite Ets, Efs in Hw. simpl in Hw. simpl.
  rewrite Ets. simpl. rewrite Ept. rewrite Efs. simpl. rewrite Epf.
  destruct (index e "intensity") as [| | | | | i]; try reflexivity.
  simpl in Hw. simpl.
  read_int (index i "forecast").
  read_int (index i "actual").
  simpl in Hw. destruct (index i "index"); simpl in *; try reflexivity; discriminate.
Qed.

Lemma statisticsEntry_faulty (value : json) :
  wellFormedEntry statisticsFields value = false ->
  match value with
  | JObject e => parses (index e "to") && parses (index e "from")
  | _ => true
  end = true ->
  is_panic (statisticsEntry value) = true.
Proof.
  unfold wellFormedEntry, typedEntry, statisticsEntry.
  destruct value as [| | | | | e]; try reflexivity.
  intros Hw Hp. rewrite Hp, andb_true_r in Hw.
  apply andb_prop in Hp. destruct Hp as [Pto Pfrom].
  destruct (parses_Some _ Pto) as (ts & tt & Ets & Ept).
  destruct (parses_Some _ Pfrom) as (fs & ft & Efs & Epf).
  rewrite Ets, Efs in Hw. simpl in Hw. simpl.
  rewrite Ets. simpl. rewrite Ept. rewrite Efs. simpl. rewrite Epf.
  destruct (index e "intensity") as [| | | | | i]; try reflexivity.
  simpl in Hw. simpl.
  read_int (index i "max").
  read_int (index i "average").
  read_int (index i "min").
  simpl in Hw. destruct (index i "index"); simpl in *; try reflexivity; discriminate.
Qed.

Lemma intensityLoop_panics (before : list json) (value : json) (rest : list json) :
  forall entries,
    Forall (fun v => exists e, intensityEntry v = Ok (Some e)) before ->
    is_panic (intensityEntry value) = true ->
    is_panic (intensityLoop (before ++ value :: rest) entries) = true.
Proof.
  induction before as [| v before IH]; intros entries Hall Hp; simpl.
  - destruct (intensityEntry value); try discriminate. reflexivity.
  - inversion Hall as [| ? ? [e He] Hrest]; subst. rewrite He. simpl. auto.
Qed.

Lemma statisticsLoop_panics (before : list json) (value : json) (rest : list json) :
  forall entries,
    Forall (fun v => exists e, statisticsEntry v = Ok (Some e)) before ->
    is_panic (statisticsEntry value) = true ->
    is_panic (statisticsLoop (before ++ value :: rest) entries) = true.
Proof.
  induction before as [| v before IH]; intros entries Hall Hp; simpl.
  - destruct (statisticsEntry value); try discriminate. reflexivity.
  - inversion Hall as [| ? ? [e He] Hrest]; subst. rewrite He. simpl. auto.
Qed.

(** X9.  An entry is all or nothing.  After well-formed entries, an
    entry that is no object, or whose two times parse but which lacks
    the [intensity] object, or holds under [index] no string (or
    nothing), or under a numeric key something that is neither a number
    nor null, makes both decoders panic: the records decoded so far are
    not returned and no error is. *)
Theorem faulty_entry_panics
  (ir : intensityResponse) (sr : statisticsResponse)
  (data : Body) (decoded : jmap) (before : list json) (value : json) (rest : list json) :
  json_Unmarshal_map data = Ok decoded ->
  index decoded "data" = JArray (before ++ value :: rest) ->
  match value with
  | JObject e => parses (index e "to") && parses (index e "from")
  | _ => true
  end = true ->
  (forallb (wellFormedEntry intensityFields) before = true ->
   wellFormedEntry intensityFields value = false ->
   is_panic (intensityResponse_UnmarshalJSON ir data) = true)
  /\
  (forallb (wellFormedEntry statisticsFields) before = true ->
   wellFormedEntry statisticsFields value = false ->
   is_panic (statisticsResponse_UnmarshalJSON sr data) = true).
Proof.
  intros Hmap Hdata Hp. split; intros Hbefore Hw.
  - unfold intensityResponse_UnmarshalJSON. rewrite Hmap. simpl. rewrite Hdata. simpl.
    pose proof (intensityLoop_panics before value rest []
                  (Forall_wellFormed _ _ _ intensityEntry_wellFormed Hbefore)
                  (intensityEntry_faulty value Hw Hp)) as H.
    destruct (intensityLoop (before ++ value :: rest) []); try discriminate. reflexivity.
  - unfold statisticsResponse_UnmarshalJSON. rewrite Hmap. simpl. rewrite Hdata. simpl.
    pose proof (statisticsLoop_panics before value rest []
                  (Forall_wellFormed _ _ _ statisticsEntry_wellFormed Hbefore)
                  (statisticsEntry_faulty value Hw Hp)) as H.
    destruct (statisticsLoop (before ++ value :: rest) []); try discriminate. reflexivity.
Qed.


(* ------------------------------------------------------------------ *)
(** *** The example program *)

Lemma wrapInt_small (z : Z) : minInt64 <= z <= maxInt64 -> wrapInt z = z.
Proof.
  unfold wrapInt, minInt64, maxInt64.
  change (2 ^ 63) with 9223372036854775808.
  change (2 ^ 64) with 18446744073709551616.
  intros H. rewrite Z.mod_small; lia.
Qed.

(** A loop that counts up by a positive step prints one character for
    every step that starts below the bound. *)
Lemma printLoop_counts (c : ascii) (step n : Z) :
  0 < step -> n + step <= maxInt64 + 1 ->
  forall (fuel : nat) (i : Z),
    minInt64 <= i ->
    (Z.to_nat ((n - i + step - 1) / step) <= fuel)%nat ->
    printLoop fuel c step i n = Some (copies (Z.to_nat ((n - i + step - 1) / step)) c).
Proof.
  intros Hstep Hn. induction fuel as [| fuel IH]; intros i Hi Hfuel.
  - destruct (i <? n) eqn:E; simpl; rewrite E.
    + apply Z.ltb_lt in E.
      assert (1 <= (n - i + step - 1) / step)
        by (apply Z.div_le_lower_bound; lia).
      lia.
    + apply Z.ltb_ge in E.
      assert ((n - i + step - 1) / step <= 0).
      { apply Z.lt_succ_r, Z.div_lt_upper_bound; lia. }
      replace (Z.to_nat ((n - i + step - 1) / step)) with 0%nat by lia.
      reflexivity.
  - simpl. destruct (i <? n) eqn:E.
    + apply Z.ltb_lt in E.
      assert (Hw : wrapInt (i + step) = i + step).
      { apply wrapInt_small. unfold minInt64, maxInt64 in *.
        change (2 ^ 63) with 9223372036854775808 in *. lia. }
      rewrite Hw.
      assert (Hq : (n - i + step - 1) / step = (n - (i + step) + step - 1) / step + 1).
      { replace (n - i + step - 1) with ((n - (i + step) + step - 1) + 1 * step) by lia.
        rewrite Z.div_add by lia. reflexivity. }
      assert (Hnonneg : 0 <= (n - (i + step) + step - 1) / step).
      { apply Z.div_pos; lia. }
      rewrite IH; [| lia | lia].
      simpl. rewrite Hq.
      replace (Z.to_nat ((n - (i + step) + step - 1) / step + 1))
        with (S (Z.to_nat ((n - (i + step) + step - 1) / step))) by lia.
      reflexivity.
    + apply Z.ltb_ge in E.
      assert ((n - i + step - 1) / step <= 0).
      { apply Z.lt_succ_r, Z.div_lt_upper_bound; lia. }
      replace (Z.to_nat ((n - i + step - 1) / step)) with 0%nat by lia.
      reflexivity.
Qed.

(** X14.  The bar of a value.  For a value that leaves room for one more
    step below the greatest [int], the loop of the example program, given
    fuel for its turns, prints one character for every ten gCO2/KWh, the
    ten begun counting as whole: none for a value that is not positive
    (the sentinel -1 too), one for 1 to 10, two for 11 to 20, and so
    on. *)
Theorem bar_has_a_character_for_every_ten (fuel : nat) (c : ascii) (value : Z) :
  value <= maxInt64 - charRepSize ->
  (barLength value <= fuel)%nat ->
  printLoop fuel c charRepSize 0 value = Some (copies (barLength value) c)
  /\ (value <= 0 -> barLength value = 0%nat)
  /\ (0 < value -> 10 * (Z.of_nat (barLength value) - 1) < value
                   /\ value <= 10 * Z.of_nat (barLength value)).
Proof.
  intros Hv Hfuel. unfold barLength in *. unfold charRepSize in *.
  split; [| split].
  - pose proof (printLoop_counts c 10 value) as H.
    replace (value + 9) with (value - 0 + 10 - 1) in * by lia.
    apply H; try lia. unfold minInt64. change (2 ^ 63) with 9223372036854775808. lia.
  - intros Hle.
    assert ((value + 9) / 10 <= 0) by (apply Z.lt_succ_r, Z.div_lt_upper_bound; lia).
    lia.
  - intros Hpos.
    assert (0 <= (value + 9) / 10) by (apply Z.div_pos; lia).
    rewrite Z2Nat.id by lia.
    pose proof (Z.div_mod (value + 9) 10 ltac:(lia)) as Hdm.
    pose proof (Z.mod_pos_bound (value + 9) 10 ltac:(lia)) as Hb.
    lia.
Qed.

Lemma drawRow_text (fuel : nat) (intensity : Intensity) :
  Forecast intensity <= maxInt64 - charRepSize ->
  Actual intensity <= maxInt64 - charRepSize ->
  (13 <= fuel)%nat ->
  (barLength (Forecast intensity) <= fuel)%nat ->
  (barLength (Actual intensity) <= fuel)%nat ->
  drawRow fuel intensity = Some (rowText intensity).
Proof.
  intros Hf Ha H13 Hff Hfa. unfold drawRow, rowText.
  pose proof (printLoop_counts forecastChar 10 (Forecast intensity)) as HF.
  pose proof (printLoop_counts actualChar 10 (Actual intensity)) as HA.
  pose proof (printLoop_counts " " 1 timeColumnLen) as HM.
  unfold barLength, charRepSize in *.
  assert (Hmin : minInt64 <= 0)
    by (unfold minInt64; change (2 ^ 63) with 9223372036854775808; lia).
  assert (Hmax : maxInt64 = 9223372036854775807) by reflexivity.
  rewrite (HF ltac:(lia) ltac:(lia) fuel 0 Hmin);
    [| replace (Forecast intensity - 0 + 10 - 1) with (Forecast intensity + 9) by lia;
       exact Hff].
  replace (Forecast intensity - 0 + 10 - 1) with (Forecast intensity + 9) by lia.
  simpl obind.
  destruct (Actual intensity =? -1); simpl negb; cbv iota.
  - reflexivity.
  - rewrite (HM ltac:(lia) ltac:(rewrite Hmax; vm_compute; discriminate) fuel 0 Hmin);
      [| vm_compute (Z.to_nat _); exact H13].
    rewrite (HA ltac:(lia) ltac:(lia) fuel 0 Hmin);
      [| replace (Actual intensity - 0 + 10 - 1) with (Actual intensity + 9) by lia;
         exact Hfa].
    replace (Actual intensity - 0 + 10 - 1) with (Actual intensity + 9) by lia.
    simpl obind. vm_compute (Z.to_nat _).
    reflexivity.
Qed.

(** X15.  What the example program draws.  For records whose values
    leave room for one more step below the greatest [int], and fuel for
    the longest bar (and for the margin of 13), the program prints the
    records in their order, two lines for each: the times and the bar of
    the forecast, then, after a margin of 13 spaces, the bar of the
    actual intensity; when the actual intensity is the sentinel -1 the
    second line is empty. *)
Theorem example_draws_two_lines_a_record (fuel : nat) (intensityArray : list Intensity) :
  (13 <= fuel)%nat ->
  Forall (fun intensity =>
            Forecast intensity <= maxInt64 - charRepSize
            /\ Actual intensity <= maxInt64 - charRepSize
            /\ (barLength (Forecast intensity) <= fuel)%nat
            /\ (barLength (Actual intensity) <= fuel)%nat) intensityArray ->
  drawRows fuel intensityArray
  = Some (fold_right (fun intensity text => (rowText intensity ++ text)%string)
            EmptyString intensityArray).
Proof.
  intros H13 Hall. induction Hall as [| intensity rest (Hf & Ha & Hff & Hfa) Hrest IH].
  - reflexivity.
  - simpl. rewrite (drawRow_text fuel intensity Hf Ha H13 Hff Hfa). simpl.
    rewrite IH. reflexivity.
Qed.


(* ------------------------------------------------------------------ *)
(** *** The outcome of a decode

    What the loops and the decoders do with a body, by the types of what
    they read of it. *)





















End Package.

(* ================================================================== *)
(** ** The two snapshots *)

Section Snapshots.

Variable time_Parse : string -> string -> option Time.
Variable time_Format : string -> Time -> string.
Variable time_Date : Time -> Z * Z * Z.
Variable http_Get : string -> error + Body.
Variable time_Now : Time.

Ltac case_steps :=
  repeat (simpl;
          match goal with
          | |- context [match index ?m ?k with _ => _ end] =>
              destruct (index m k)
          | |- context [time_Parse ?l ?v] => destruct (time_Parse l v)
          end);
  reflexivity.

Lemma earlier_intensityEntry (value : json) :
  omap (option_map flattenIntensity) (Earlier.intensityEntry time_Parse value)
  = intensityEntry time_Parse value.
Proof.
  unfold Earlier.intensityEntry, intensityEntry, bind, omap, assertMap, assertString,
    unmarshalInt, assertFloat64.
  destruct value; try reflexivity. case_steps.
Qed.

Lemma earlier_statisticsEntry (value : json) :
  omap (option_map flattenStatistics) (Earlier.statisticsEntry time_Parse value)
  = statisticsEntry time_Parse value.
Proof.
  unfold Earlier.statisticsEntry, statisticsEntry, bind, omap, assertMap, assertString,
    unmarshalInt, assertFloat64.
  destruct value; try reflexivity. case_steps.
Qed.

Lemma earlier_intensityLoop (decodedData : list json) :
  forall acc,
    omap (map flattenIntensity) (Earlier.intensityLoop time_Parse decodedData acc)
    = intensityLoop time_Parse decodedData (map flattenIntensity acc).
Proof.
  induction decodedData as [| value rest IH]; intros acc; simpl; [reflexivity |].
  rewrite <- (earlier_intensityEntry value).
  destruct (Earlier.intensityEntry time_Parse value) as [[e |] | |]; simpl;
    try reflexivity.
  rewrite IH, map_app. reflexivity.
Qed.

Lemma earlier_statisticsLoop (decodedData : list json) :
  forall acc,
    omap (map flattenStatistics) (Earlier.statisticsLoop time_Parse decodedData acc)
    = statisticsLoop time_Parse decodedData (map flattenStatistics acc).
Proof.
  induction decodedData as [| value rest IH]; intros acc; simpl; [reflexivity |].
  rewrite <- (earlier_statisticsEntry value).
  destruct (Earlier.statisticsEntry time_Parse value) as [[e |] | |]; simpl;
    try reflexivity.
  rewrite IH, map_app. reflexivity.
Qed.

Lemma earlier_intensityResponse (data : Body)
  (ir : intensityResponse) (ir' : Earlier.intensityResponse) :
  omap (fun r => map flattenIntensity (Earlier.entries r))
    (Earlier.intensityResponse_UnmarshalJSON time_Parse ir' data)
  = omap ientries (intensityResponse_UnmarshalJSON time_Parse ir data).
Proof.
  unfold Earlier.intensityResponse_UnmarshalJSON, intensityResponse_UnmarshalJSON.
  destruct (json_Unmarshal_map data) as [decoded | |]; simpl; try reflexivity.
  destruct (index decoded "data") as [| | | | l |]; simpl; try reflexivity.
  - destruct (index decoded "error") as [| | | | | e]; simpl; try reflexivity.
    destruct (assertString (index e "code")); simpl; try reflexivity.
    destruct (assertString (index e "message")); reflexivity.
  - pose proof (earlier_intensityLoop l []) as H. simpl in H. rewrite <- H.
    destruct (Earlier.intensityLoop time_Parse l []); reflexivity.
Qed.

Lemma earlier_statisticsResponse (data : Body)
  (sr : statisticsResponse) (sr' : Earlier.statisticsResponse) :
  omap (fun r => map flattenStatistics (Earlier.sentries r))
    (Earlier.statisticsResponse_UnmarshalJSON time_Parse sr' data)
  = omap sentries (statisticsResponse_UnmarshalJSON time_Parse sr data).
Proof.
  unfold Earlier.statisticsResponse_UnmarshalJSON, statisticsResponse_UnmarshalJSON.
  destruct (json_Unmarshal_map data) as [decoded | |]; simpl; try reflexivity.
  destruct (index decoded "data") as [| | | | l |]; simpl; try reflexivity.
  - destruct (index decoded "error") as [| | | | | e]; simpl; try reflexivity.
    destruct (assertString (index e "code")); simpl; try reflexivity.
    destruct (assertString (index e "message")); reflexivity.
  - pose proof (earlier_statisticsLoop l []) as H. simpl in H. rewrite <- H.
    destruct (Earlier.statisticsLoop time_Parse l []); reflexivity.
Qed.

(** X11.  The two snapshots decode every body alike: on the same bytes
    the decoders of the earlier snapshot succeed, fail or panic as those
    of the current source do, with the same error or panic, and the
    nested records they build hold, record by record, what the flat ones
    hold. *)
Theorem snapshots_decode_alike
  (data : Body)
  (ir : intensityResponse) (ir' : Earlier.intensityResponse)
  (sr : statisticsResponse) (sr' : Earlier.statisticsResponse) :
  omap (fun r => map flattenIntensity (Earlier.entries r))
    (Earlier.intensityResponse_UnmarshalJSON time_Parse ir' data)
  = omap ientries (intensityResponse_UnmarshalJSON time_Parse ir data)
  /\
  omap (fun r => map flattenStatistics (Earlier.sentries r))
    (Earlier.statisticsResponse_UnmarshalJSON time_Parse sr' data)
  = omap sentries (statisticsResponse_UnmarshalJSON time_Parse sr data).
Proof.
  split; [apply earlier_intensityResponse | apply earlier_statisticsResponse].
Qed.

Lemma earlier_requests_intensity {A : Type} (ah : APIHandler) (resource : string)
  (k : Earlier.intensityResponse -> Body -> M A) :
  (forall response responseBytes, requests (k response responseBytes) = []) ->
  requests
    (responseBytes <~ Earlier.getAPIResponse http_Get ah resource ;;
     response <~ lift (Earlier.json_Unmarshal_intensityResponse time_Parse responseBytes
                         {| Earlier.entries := [] |}) ;;
     k response responseBytes)
  = [(serverAddress ah ++ resource)%string].
Proof.
  intros Hk. unfold Earlier.getAPIResponse, bindM, lift.
  destruct (http_Get (serverAddress ah ++ resource)) as [err | responseBytes];
    [reflexivity |].
  destruct (Earlier.json_Unmarshal_intensityResponse time_Parse responseBytes
              {| Earlier.entries := [] |}) as [response | |]; try reflexivity.
  specialize (Hk response responseBytes).
  destruct (k response responseBytes) as [tr r]. simpl in *. rewrite Hk. reflexivity.
Qed.

Lemma earlier_requests_statistics {A : Type} (ah : APIHandler) (resource : string)
  (k : Earlier.statisticsResponse -> Body -> M A) :
  (forall response responseBytes, requests (k response responseBytes) = []) ->
  requests
    (responseBytes <~ Earlier.getAPIResponse http_Get ah resource ;;
     response <~ lift (Earlier.json_Unmarshal_statisticsResponse time_Parse responseBytes
                         {| Earlier.sentries := [] |}) ;;
     k response responseBytes)
  = [(serverAddress ah ++ resource)%string].
Proof.
  intros Hk. unfold Earlier.getAPIResponse, bindM, lift.
  destruct (http_Get (serverAddress ah ++ resource)) as [err | responseBytes];
    [reflexivity |].
  destruct (Earlier.json_Unmarshal_statisticsResponse time_Parse responseBytes
              {| Earlier.sentries := [] |}) as [response | |]; try reflexivity.
  specialize (Hk response responseBytes).
  destruct (k response responseBytes) as [tr r]. simpl in *. rewrite Hk. reflexivity.
Qed.

Lemma earlier_requests_single {A : Type} (found : list A) (responseBytes : Body) :
  requests (Earlier.single found responseBytes) = [].
Proof. destruct found as [| e [| e' rest]]; reflexivity. Qed.

(** X12.  The earlier snapshot checks no parameter: whatever the
    settlement period (0 and 49 too), the range (empty, reversed or of
    any length) and the block size, its operations make their request
    and leave the judgement to the server. *)
Theorem earlier_snapshot_asks_the_server
  (ah : APIHandler) (date from to : Time) (settlementPeriod : Z) (blockSize : Duration) :
  requests (Earlier.GetIntensityForDayAndSettlementPeriod time_Parse time_Date http_Get
              ah date settlementPeriod)
  = [(serverAddress ah ++ Earlier.datePath time_Date date
        ++ "/" ++ fmt_d settlementPeriod)%string]
  /\ requests (Earlier.GetIntensityBetween time_Parse time_Format http_Get ah from to)
     = [(serverAddress ah ++ "/intensity/" ++ time_Format natGridTimeFormat from
           ++ "/" ++ time_Format natGridTimeFormat to)%string]
  /\ requests (Earlier.GetStatistics time_Parse time_Format http_Get ah from to)
     = [(serverAddress ah ++ "/intensity/stats/" ++ time_Format natGridTimeFormat from
           ++ "/" ++ time_Format natGridTimeFormat to)%string]
  /\ requests (Earlier.GetStatisticsInBlocks time_Parse time_Format http_Get
                 ah from to blockSize)
     = [(serverAddress ah ++ "/intensity/stats/" ++ time_Format natGridTimeFormat from
           ++ "/" ++ time_Format natGridTimeFormat to
           ++ "/" ++ fmt_d (blockHours blockSize))%string].
Proof.
  repeat split.
  - apply (earlier_requests_intensity ah _
             (fun r b => Earlier.single (Earlier.entries r) b)).
    intros; apply earlier_requests_single.
  - apply (earlier_requests_intensity ah _ (fun r _ => ret (Earlier.entries r))).
    reflexivity.
  - apply (earlier_requests_statistics ah _
             (fun r b => Earlier.single (Earlier.sentries r) b)).
    intros; apply earlier_requests_single.
  - apply (earlier_requests_statistics ah _ (fun r _ => ret (Earlier.sentries r))).
    reflexivity.
Qed.

Lemma earlier_json_Unmarshal_intensityResponse (b : Body) :
  omap (fun r => map flattenIntensity (Earlier.entries r))
    (Earlier.json_Unmarshal_intensityResponse time_Parse b {| Earlier.entries := [] |})
  = omap ientries (json_Unmarshal_intensityResponse time_Parse b {| ientries := [] |}).
Proof.
  unfold Earlier.json_Unmarshal_intensityResponse, json_Unmarshal_intensityResponse.
  destruct (parsed b); [apply earlier_intensityResponse | reflexivity].
Qed.

Lemma earlier_json_Unmarshal_statisticsResponse (b : Body) :
  omap (fun r => map flattenStatistics (Earlier.sentries r))
    (Earlier.json_Unmarshal_statisticsResponse time_Parse b {| Earlier.sentries := [] |})
  = omap sentries (json_Unmarshal_statisticsResponse time_Parse b {| sentries := [] |}).
Proof.
  unfold Earlier.json_Unmarshal_statisticsResponse, json_Unmarshal_statisticsResponse.
  destruct (parsed b); [apply earlier_statisticsResponse | reflexivity].
Qed.

Lemma fetch_alike_intensity {A B : Type} (f : A -> B) (ah : APIHandler)
  (resource : string)
  (k' : Earlier.intensityResponse -> Body -> M A) (k : intensityResponse -> Body -> M B) :
  (forall r' r b, map flattenIntensity (Earlier.entries r') = ientries r ->
                  mapM f (k' r' b) = k r b) ->
  mapM f
    (responseBytes <~ Earlier.getAPIResponse http_Get ah resource ;;
     response <~ lift (Earlier.json_Unmarshal_intensityResponse time_Parse responseBytes
                         {| Earlier.entries := [] |}) ;;
     k' response responseBytes)
  = (responseBytes <~ getAPIResponse http_Get ah resource ;;
     response <~ lift (json_Unmarshal_intensityResponse time_Parse responseBytes
                         {| ientries := [] |}) ;;
     k response responseBytes).
Proof.
  intros Hk. unfold Earlier.getAPIResponse, getAPIResponse, bindM, lift, mapM.
  destruct (http_Get (serverAddress ah ++ resource)) as [err | b]; [reflexivity |].
  pose proof (earlier_json_Unmarshal_intensityResponse b) as H.
  destruct (Earlier.json_Unmarshal_intensityResponse time_Parse b
              {| Earlier.entries := [] |}) as [r' | e' | p'];
    destruct (json_Unmarshal_intensityResponse time_Parse b {| ientries := [] |})
      as [r | e | p]; simpl in H; try discriminate;
    try (injection H as ->; reflexivity).
  injection H as H. specialize (Hk r' r b H). unfold mapM in Hk.
  destruct (k' r' b) as [tr' o']. destruct (k r b) as [tr o]. simpl in *.
  injection Hk as -> ->. reflexivity.
Qed.

Lemma fetch_alike_statistics {A B : Type} (f : A -> B) (ah : APIHandler)
  (resource : string)
  (k' : Earlier.statisticsResponse -> Body -> M A)
  (k : statisticsResponse -> Body -> M B) :
  (forall r' r b, map flattenStatistics (Earlier.sentries r') = sentries r ->
                  mapM f (k' r' b) = k r b) ->
  mapM f
    (responseBytes <~ Earlier.getAPIResponse http_Get ah resource ;;
     response <~ lift (Earlier.json_Unmarshal_statisticsResponse time_Parse responseBytes
                         {| Earlier.sentries := [] |}) ;;
     k' response responseBytes)
  = (responseBytes <~ getAPIResponse http_Get ah resource ;;
     response <~ lift (json_Unmarshal_statisticsResponse time_Parse responseBytes
                         {| sentries := [] |}) ;;
     k response responseBytes).
Proof.
  intros Hk. unfold Earlier.getAPIResponse, getAPIResponse, bindM, lift, mapM.
  destruct (http_Get (serverAddress ah ++ resource)) as [err | b]; [reflexivity |].
  pose proof (earlier_json_Unmarshal_statisticsResponse b) as H.
  destruct (Earlier.json_Unmarshal_statisticsResponse time_Parse b
              {| Earlier.sentries := [] |}) as [r' | e' | p'];
    destruct (json_Unmarshal_statisticsResponse time_Parse b {| sentries := [] |})
      as [r | e | p]; simpl in H; try discriminate;
    try (injection H as ->; reflexivity).
  injection H as H. specialize (Hk r' r b H). unfold mapM in Hk.
  destruct (k' r' b) as [tr' o']. destruct (k r b) as [tr o]. simpl in *.
  injection Hk as -> ->. reflexivity.
Qed.

Lemma alike_lists (r' : Earlier.intensityResponse) (r : intensityResponse) (b : Body) :
  map flattenIntensity (Earlier.entries r') = ientries r ->
  mapM (map flattenIntensity) (ret (Earlier.entries r')) = ret (ientries r).
Proof. intros <-. reflexivity. Qed.

Lemma alike_singles (r' : Earlier.intensityResponse) (r : intensityResponse) (b : Body) :
  map flattenIntensity (Earlier.entries r') = ientries r ->
  mapM flattenIntensity (Earlier.single (Earlier.entries r') b)
  = single (ientries r) b.
Proof.
  intros <-. destruct (Earlier.entries r') as [| e [| e' rest]]; reflexivity.
Qed.

Lemma alike_statistics_lists
  (r' : Earlier.statisticsResponse) (r : statisticsResponse) (b : Body) :
  map flattenStatistics (Earlier.sentries r') = sentries r ->
  mapM (map flattenStatistics) (ret (Earlier.sentries r')) = ret (sentries r).
Proof. intros <-. reflexivity. Qed.

Lemma alike_statistics_singles
  (r' : Earlier.statisticsResponse) (r : statisticsResponse) (b : Body) :
  map flattenStatistics (Earlier.sentries r') = sentries r ->
  mapM flattenStatistics (Earlier.single (Earlier.sentries r') b)
  = single (sentries r) b.
Proof.
  intros <-. destruct (Earlier.sentries r') as [| e [| e' rest]]; reflexivity.
Qed.

(** X13.  The checks are all that the current source adds to the
    operations the two snapshots ask in the same way.  On parameters
    that pass them, an operation of the current source makes the request
    the earlier one makes and returns what it returns, record for
    record, whatever the server answers; the five operations that take a
    day, a time or the start of a window do so on every parameter. *)
Theorem snapshots_agree_on_checked_parameters
  (ah : APIHandler) (date time from to : Time) (settlementPeriod : Z)
  (blockSize : Duration) :
  mapM (map flattenIntensity)
    (Earlier.GetIntensityForDay time_Parse time_Date http_Get ah date)
  = GetIntensityForDay time_Parse time_Date http_Get ah date
  /\ mapM flattenIntensity
       (Earlier.GetIntensityForTimePeriod time_Parse time_Format http_Get ah time)
     = GetIntensityForTimePeriod time_Parse time_Format http_Get ah time
  /\ mapM (map flattenIntensity)
       (Earlier.GetNext24HourIntensity time_Parse time_Format http_Get ah from)
     = GetNext24HourIntensity time_Parse time_Format http_Get ah from
  /\ mapM (map flattenIntensity)
       (Earlier.GetNext48HourIntensity time_Parse time_Format http_Get ah from)
     = GetNext48HourIntensity time_Parse time_Format http_Get ah from
  /\ mapM (map flattenIntensity)
       (Earlier.GetPrior24HourIntensity time_Parse time_Format http_Get ah from)
     = GetPrior24HourIntensity time_Parse time_Format http_Get ah from
  /\ (1 <= settlementPeriod <= 48 ->
      mapM flattenIntensity
        (Earlier.GetIntensityForDayAndSettlementPeriod time_Parse time_Date http_Get
           ah date settlementPeriod)
      = GetIntensityForDayAndSettlementPeriod time_Parse time_Date http_Get
          ah date settlementPeriod)
  /\ (unixNano from < unixNano to ->
      unixNano to - unixNano from <= thirtyDays ->
      mapM (map flattenIntensity)
        (Earlier.GetIntensityBetween time_Parse time_Format http_Get ah from to)
      = GetIntensityBetween time_Parse time_Format http_Get ah from to
      /\ mapM flattenStatistics
           (Earlier.GetStatistics time_Parse time_Format http_Get ah from to)
         = GetStatistics time_Parse time_Format http_Get ah from to
      /\ (1 <= blockHours blockSize <= 24 ->
          mapM (map flattenStatistics)
            (Earlier.GetStatisticsInBlocks time_Parse time_Format http_Get
               ah from to blockSize)
          = GetStatisticsInBlocks time_Parse time_Format http_Get ah from to blockSize)).
Proof.
  split; [| split; [| split; [| split; [| split; [| split]]]]].
  - apply (fetch_alike_intensity _ ah _ (fun r _ => ret (Earlier.entries r))
             (fun r _ => ret (ientries r))). apply alike_lists.
  - apply (fetch_alike_intensity _ ah _
             (fun r b => Earlier.single (Earlier.entries r) b)
             (fun r b => single (ientries r) b)). apply alike_singles.
  - apply (fetch_alike_intensity _ ah _ (fun r _ => ret (Earlier.entries r))
             (fun r _ => ret (ientries r))). apply alike_lists.
  - apply (fetch_alike_intensity _ ah _ (fun r _ => ret (Earlier.entries r))
             (fun r _ => ret (ientries r))). apply alike_lists.
  - apply (fetch_alike_intensity _ ah _ (fun r _ => ret (Earlier.entries r))
             (fun r _ => ret (ientries r))). apply alike_lists.
  - intros Hp. unfold GetIntensityForDayAndSettlementPeriod.
    rewrite (period_guard _ Hp).
    apply (fetch_alike_intensity _ ah _
             (fun r b => Earlier.single (Earlier.entries r) b)
             (fun r b => single (ientries r) b)). apply alike_singles.
  - intros Hlt Hspan. destruct (range_guard from to Hlt Hspan) as [E1 E2].
    unfold GetIntensityBetween, GetStatistics, GetStatisticsInBlocks.
    rewrite E1, E2. repeat split.
    + apply (fetch_alike_intensity _ ah _ (fun r _ => ret (Earlier.entries r))
               (fun r _ => ret (ientries r))). apply alike_lists.
    + apply (fetch_alike_statistics _ ah _
               (fun r b => Earlier.single (Earlier.sentries r) b)
               (fun r b => single (sentries r) b)). apply alike_statistics_singles.
    + intros Hb. cbv zeta. rewrite (block_guard _ Hb).
      apply (fetch_alike_statistics _ ah _ (fun r _ => ret (Earlier.sentries r))
               (fun r _ => ret (sentries r))). apply alike_statistics_lists.
Qed.

End Snapshots.

(* ================================================================== *)
(** ** Worked examples

    The package run on the reference collaborators and the fixtures. *)

(** The decoders on the body whose second entry ends at a time that does
    not parse: the first record alone comes back, as a success, and
    [GetIntensityForDay] hands it to its caller without an error. *)
Example broken_body_decodes_to_its_first_record :
  intensityResponse_UnmarshalJSON refParse {| ientries := [] |} brokenBody
  = Ok {| ientries :=
            [ {| iFrom := noon; iTo := after (30 * Minute) noon;
                 Forecast := 266; Actual := 263; iIndex := "moderate" |} ] |}
  /\ statisticsResponse_UnmarshalJSON refParse {| sentries := [] |}
       (bodyOf (envelope [brokenPeriod]))
     = Ok {| sentries := [] |}
  /\ result (GetIntensityForDay refParse refDate (serve brokenBody)
               NewCarbonIntensityAPIHandler noon)
     = Ok [ {| iFrom := noon; iTo := after (30 * Minute) noon;
               Forecast := 266; Actual := 263; iIndex := "moderate" |} ].
Proof. repeat split. Qed.

(** The broken body: one record is kept, and the decode succeeds. *)
Lemma unparsed_time_is_read_as_success_witness :
  (exists entries,
     intensityResponse_UnmarshalJSON refParse {| ientries := [] |} brokenBody
     = Ok {| ientries := entries |}
     /\ length entries = 1%nat)
  /\
  (exists entries,
     statisticsResponse_UnmarshalJSON refParse {| sentries := [] |} brokenBody
     = Ok {| sentries := entries |}
     /\ length entries = 1%nat).
Proof.
  destruct (unparsed_time_is_read_as_success refParse
              {| ientries := [] |} {| sentries := [] |} brokenBody
              [("data", JArray [settledPeriod; brokenPeriod; futurePeriod])]%string
              [settledPeriod] brokenPeriod [futurePeriod] eq_refl eq_refl)
    as [Hi Hs].
  split; [apply Hi | apply Hs]; reflexivity.
Defined.

(** An empty range, a range of 31 days and a range of 30 days. *)
Lemma range_is_checked_before_the_request_witness :
  GetIntensityBetween refParse refFormat unreachable NewCarbonIntensityAPIHandler
    noon noon
  = ([], Err (NotStrictlyEarlier noon noon))
  /\ GetStatistics refParse refFormat unreachable NewCarbonIntensityAPIHandler
       noon (after (31 * 24 * Hour) noon)
     = ([], Err (RangeTooLarge noon (after (31 * 24 * Hour) noon)))
  /\ requests (GetIntensityBetween refParse refFormat (serve twoPeriods)
                 NewCarbonIntensityAPIHandler noon (after (30 * 24 * Hour) noon))
     = ["https://api.carbonintensity.org.uk/intensity/2018-01-20T12:00Z/2018-02-19T12:00Z"%string].
Proof.
  split; [| split].
  - apply (range_is_checked_before_the_request refParse refFormat unreachable
             NewCarbonIntensityAPIHandler noon noon).
    simpl; lia.
  - apply (range_is_checked_before_the_request refParse refFormat unreachable
             NewCarbonIntensityAPIHandler noon (after (31 * 24 * Hour) noon)).
    + reflexivity.
    + reflexivity.
  - apply (range_is_checked_before_the_request refParse refFormat (serve twoPeriods)
             NewCarbonIntensityAPIHandler noon (after (30 * 24 * Hour) noon)).
    + reflexivity.
    + vm_compute; discriminate.
Defined.



(** C4: the factor table without its [Wind] key.  The decode does not
    return an error: it panics on the missing value. *)
Lemma missing_factor_panics :
  decodeIntensityFactors factorsWithoutWind = Panic (TypeAssertion TFloat64 JNull)
  /\ is_err (decodeIntensityFactors factorsWithoutWind) = false
  /\ result (GetIntensityFactors (serve factorsWithoutWind) NewCarbonIntensityAPIHandler)
     = Panic (TypeAssertion TFloat64 JNull).
Proof. repeat split. Qed.

(** No entry, the whole table, and the table without a key. *)
Lemma factors_decode_or_panic_witness :
  decodeIntensityFactors (bodyOf (envelope []))
  = Err (UnexpectedEntries (raw (bodyOf (envelope []))))
  /\ decodeIntensityFactors factorsBody
     = Ok {| Biomass := 120; Coal := 937; DutchImports := 474; FrenchImports := 53;
             GasCombinedCycle := 394; GasOpenCycle := 651; Hydro := 0;
             IrishImports := 458; Nuclear := 0; Oil := 935; Other := 300;
             PumpedStorage := 0; Solar := 0; Wind := 0 |}
  /\ is_panic (decodeIntensityFactors factorsWithoutWind) = true.
Proof.
  split; [| split].
  - destruct (factors_decode_or_panic (bodyOf (envelope []))
                [("data", JArray [])]%string [] eq_refl eq_refl) as (Hlen & _ & _).
    apply Hlen. simpl. lia.
  - destruct (factors_decode_or_panic factorsBody
                [("data", JArray [JObject factorTable])]%string [JObject factorTable]
                eq_refl eq_refl) as (_ & Hall & _).
    apply (Hall factorTable eq_refl).
    intros k Hin. simpl in Hin.
    repeat (destruct Hin as [<- | Hin]; [reflexivity |]). contradiction.
  - destruct (factors_decode_or_panic factorsWithoutWind
                [("data", JArray [JObject (without "Wind" factorTable)])]%string
                [JObject (without "Wind" factorTable)]
                eq_refl eq_refl) as (_ & _ & Hmiss).
    apply (Hmiss (without "Wind" factorTable) "Wind"%string eq_refl).
    + simpl. tauto.
    + reflexivity.
Defined.

(** The period after the last of a day, and the last. *)
Lemma settlement_period_is_checked_before_the_request_witness :
  GetIntensityForDayAndSettlementPeriod refParse refDate unreachable
    NewCarbonIntensityAPIHandler noon 49
  = ([], Err (InvalidSettlementPeriod 49))
  /\ requests (GetIntensityForDayAndSettlementPeriod refParse refDate (serve onePeriod)
                 NewCarbonIntensityAPIHandler noon 48)
     = ["https://api.carbonintensity.org.uk/intensity/date/2018-01-20/48"%string].
Proof.
  split.
  - destruct (settlement_period_is_checked_before_the_request refParse refDate
                unreachable NewCarbonIntensityAPIHandler noon 49) as (Hbad & _).
    apply Hbad. right. reflexivity.
  - destruct (settlement_period_is_checked_before_the_request refParse refDate
                (serve onePeriod) NewCarbonIntensityAPIHandler noon 48) as (_ & Hok & _).
    apply Hok. split; vm_compute; discriminate.
Defined.

(** A week in blocks of 59 minutes, and in blocks of 3 hours 59 minutes. *)
Lemma block_size_is_checked_before_the_request_witness :
  GetStatisticsInBlocks refParse refFormat unreachable NewCarbonIntensityAPIHandler
    noon (after (7 * 24 * Hour) noon) (59 * Minute)
  = ([], Err (InvalidBlockSize (59 * Minute)))
  /\ requests (GetStatisticsInBlocks refParse refFormat (serve twoWeeks)
                 NewCarbonIntensityAPIHandler
                 noon (after (7 * 24 * Hour) noon) (3 * Hour + 59 * Minute))
     = ["https://api.carbonintensity.org.uk/intensity/stats/2018-01-20T12:00Z/2018-01-27T12:00Z/3"%string].
Proof.
  split.
  - destruct (block_size_is_checked_before_the_request refParse refFormat unreachable
                NewCarbonIntensityAPIHandler noon (after (7 * 24 * Hour) noon)
                (59 * Minute)) as (Hbad & _).
    destruct Hbad as (_ & _ & H).
    + left. reflexivity.
    + apply H.
      * reflexivity.
      * vm_compute; discriminate.
  - destruct (block_size_is_checked_before_the_request refParse refFormat
                (serve twoWeeks) NewCarbonIntensityAPIHandler noon
                (after (7 * 24 * Hour) noon) (3 * Hour + 59 * Minute))
      as (_ & Hok & _).
    apply Hok.
    + split; vm_compute; discriminate.
    + reflexivity.
    + vm_compute; discriminate.
Defined.

(** The half hour still to come: its actual intensity is null. *)
Lemma missing_numbers_default_to_minus_one_witness :
  unmarshalInt (index [("forecast", num 50); ("actual", JNull);
                       ("index", JString "low")]%string "actual") (-1) = Ok (-1)
  /\ unmarshalInt (index [("index", JString "moderate")]%string "max") (-1) = Ok (-1)
  /\ intensityEntry refParse futurePeriod
     = Ok (Some {| iTo := after Hour noon; iFrom := after (30 * Minute) noon;
                   Forecast := 50; Actual := -1; iIndex := "low" |})
  /\ intensityResponse_UnmarshalJSON refParse {| ientries := [] |}
       (bodyOf (envelope [futurePeriod]))
     = Ok {| ientries := [ {| iTo := after Hour noon;
                              iFrom := after (30 * Minute) noon;
                              Forecast := 50; Actual := -1; iIndex := "low" |} ] |}.
Proof.
  destruct (missing_numbers_default_to_minus_one refParse {| ientries := [] |}
              "2018-01-20T13:00Z" "2018-01-20T12:30Z"
              (after Hour noon) (after (30 * Minute) noon) eq_refl eq_refl)
    as (Hnull & Hentry & Hbody).
  split; [| split; [| split]].
  - apply (Hnull _ "actual"%string). right. reflexivity.
  - apply (Hnull _ "max"%string). left. reflexivity.
  - destruct (Hentry
                [("from", JString "2018-01-20T12:30Z");
                 ("to", JString "2018-01-20T13:00Z");
                 ("intensity", JObject [("forecast", num 50); ("actual", JNull);
                                        ("index", JString "low")])]%string
                [("forecast", num 50); ("actual", JNull); ("index", JString "low")]%string
                "low"%string eq_refl eq_refl eq_refl eq_refl) as (Hi & _).
    apply Hi. reflexivity.
  - exact Hbody.
Defined.



(** Answers of two entries and of one. *)
Lemma singleton_endpoints_want_one_entry_witness :
  result (GetCurrentIntensity refParse (serve twoPeriods) NewCarbonIntensityAPIHandler)
  = Err (UnexpectedEntries (raw twoPeriods))
  /\ result (GetIntensityForDayAndSettlementPeriod refParse refDate (serve onePeriod)
               NewCarbonIntensityAPIHandler noon 25)
     = Ok {| iFrom := noon; iTo := after (30 * Minute) noon;
             Forecast := 266; Actual := 263; iIndex := "moderate" |}
  /\ result (GetStatistics refParse refFormat (serve twoWeeks)
               NewCarbonIntensityAPIHandler noon (after (7 * 24 * Hour) noon))
     = Err (UnexpectedEntries (raw twoWeeks))
  /\ result (GetStatistics refParse refFormat (serve oneWeek)
               NewCarbonIntensityAPIHandler noon (after (7 * 24 * Hour) noon))
     = Ok {| sFrom := noon; sTo := after (7 * 24 * Hour) noon;
             Max := 331; Average := 257; Min := 169; sIndex := "moderate" |}.
Proof.
  split; [| split; [| split]].
  - destruct (singleton_endpoints_want_one_entry refParse refFormat refDate
                (serve twoPeriods) NewCarbonIntensityAPIHandler twoPeriods
                (fun url => eq_refl)) as (Hi & _).
    destruct (Hi _ eq_refl noon noon 25) as (Hbad & _).
    + split; vm_compute; discriminate.
    + destruct Hbad as (_ & H & _); [simpl; lia | exact H].
  - destruct (singleton_endpoints_want_one_entry refParse refFormat refDate
                (serve onePeriod) NewCarbonIntensityAPIHandler onePeriod
                (fun url => eq_refl)) as (Hi & _).
    destruct (Hi _ eq_refl noon noon 25) as (_ & Hone).
    + split; vm_compute; discriminate.
    + destruct (Hone _ eq_refl) as (_ & _ & H). exact H.
  - destruct (singleton_endpoints_want_one_entry refParse refFormat refDate
                (serve twoWeeks) NewCarbonIntensityAPIHandler twoWeeks
                (fun url => eq_refl)) as (_ & Hs).
    destruct (Hs _ eq_refl noon (after (7 * 24 * Hour) noon)) as (Hbad & _).
    + reflexivity.
    + vm_compute; discriminate.
    + apply Hbad. simpl. lia.
  - destruct (singleton_endpoints_want_one_entry refParse refFormat refDate
                (serve oneWeek) NewCarbonIntensityAPIHandler oneWeek
                (fun url => eq_refl)) as (_ & Hs).
    destruct (Hs _ eq_refl noon (after (7 * 24 * Hour) noon)) as (_ & Hone).
    + reflexivity.
    + vm_compute; discriminate.
    + apply (Hone _ eq_refl).
Defined.

(** C10: a period whose forecast is a string of digits.  Its times
    parse, its [intensity] is an object and its [index] a string, and
    the decode gives no list of the length of [data]: the assertion
    that the forecast is a number panics, in the decoder and in the
    operation that called it. *)
Lemma quoted_forecast_panics :
  wellFormedAsWorded refParse quotedForecast = true
  /\ json_Unmarshal_map quotedBody = Ok [("data", JArray [quotedForecast])]%string
  /\ intensityResponse_UnmarshalJSON refParse {| ientries := [] |} quotedBody
     = Panic (TypeAssertion TFloat64 (JString "266"))
  /\ result (GetIntensityForDay refParse refDate (serve quotedBody)
               NewCarbonIntensityAPIHandler noon)
     = Panic (TypeAssertion TFloat64 (JString "266")).
Proof. repeat split. Qed.

(** Two periods, and two weeks of statistics. *)
Lemma decoded_entries_follow_data_witness :
  (exists entries,
     intensityResponse_UnmarshalJSON refParse {| ientries := [] |} twoPeriods
     = Ok {| ientries := entries |}
     /\ length entries = 2%nat
     /\ Forall2 (fun v e => intensityEntry refParse v = Ok (Some e))
          [settledPeriod; futurePeriod] entries)
  /\
  (exists entries,
     statisticsResponse_UnmarshalJSON refParse {| sentries := [] |} twoWeeks
     = Ok {| sentries := entries |}
     /\ length entries = 2%nat
     /\ Forall2 (fun v e => statisticsEntry refParse v = Ok (Some e))
          [weekOfStatistics; weekOfStatistics] entries).
Proof.
  split.
  - destruct (decoded_entries_follow_data refParse
                {| ientries := [] |} {| sentries := [] |} twoPeriods
                [("data", JArray [settledPeriod; futurePeriod])]%string
                [settledPeriod; futurePeriod] eq_refl eq_refl) as (Hi & _).
    apply Hi. reflexivity.
  - destruct (decoded_entries_follow_data refParse
                {| ientries := [] |} {| sentries := [] |} twoWeeks
                [("data", JArray [weekOfStatistics; weekOfStatistics])]%string
                [weekOfStatistics; weekOfStatistics] eq_refl eq_refl) as (_ & Hs).
    apply Hs. reflexivity.
Defined.

(* ------------------------------------------------------------------ *)
(** *** The further properties on the fixtures *)

(** The server out of reach. *)
Lemma transport_error_is_returned_unchanged_witness :
  result (GetCurrentIntensity refParse unreachable NewCarbonIntensityAPIHandler)
  = Err (TransportError "connection refused")
  /\ result (GetStatisticsInBlocks refParse refFormat unreachable
               NewCarbonIntensityAPIHandler noon (after (7 * 24 * Hour) noon) (4 * Hour))
     = Err (TransportError "connection refused").
Proof.
  destruct (transport_error_is_returned_unchanged refParse refFormat refDate unreachable
              NewCarbonIntensityAPIHandler (TransportError "connection refused")
              noon noon noon (after (7 * 24 * Hour) noon) 1 (4 * Hour)
              (fun url => eq_refl)) as (_ & Hs & _ & _ & Hr).
  split.
  - exact (Forall_inv (Forall_inv_tail Hs)).
  - destruct Hr as (_ & _ & Hb).
    + reflexivity.
    + vm_compute; discriminate.
    + apply Hb. split; vm_compute; discriminate.
Defined.

(** A page of a gateway, and an array where an object is due. *)
Lemma undecodable_bodies_are_errors_witness :
  result (GetIntensityFactors (serve notJSON) NewCarbonIntensityAPIHandler)
  = Err SyntaxError
  /\ result (GetIntensityForDay refParse refDate (serve arrayBody)
               NewCarbonIntensityAPIHandler noon)
     = Err UnmarshalTypeError.
Proof.
  split.
  - destruct (undecodable_bodies_are_errors refParse refFormat refDate (serve notJSON)
                NewCarbonIntensityAPIHandler notJSON noon noon noon noon 1 Hour
                (fun url => eq_refl) SyntaxError
                (or_introl (conj eq_refl eq_refl))) as (_ & _ & Hf & _).
    exact Hf.
  - destruct (undecodable_bodies_are_errors refParse refFormat refDate (serve arrayBody)
                NewCarbonIntensityAPIHandler arrayBody noon noon noon noon 1 Hour
                (fun url => eq_refl) UnmarshalTypeError
                (or_intror (ex_intro _ (JArray [settledPeriod])
                              (conj eq_refl (conj eq_refl eq_refl)))))
      as (Hl & _).
    exact (Forall_inv Hl).
Defined.

(** The error envelope. *)
Lemma api_error_reaches_the_caller_witness :
  result (GetTodaysIntensity refParse (serve errorBody) NewCarbonIntensityAPIHandler)
  = Err (APIError "400 Bad Request" "Please enter a valid start datetime")
  /\ result (GetIntensityForDayAndSettlementPeriod refParse refDate (serve errorBody)
               NewCarbonIntensityAPIHandler noon 48)
     = Err (APIError "400 Bad Request" "Please enter a valid start datetime").
Proof.
  destruct (api_error_reaches_the_caller refParse refFormat refDate (serve errorBody)
              NewCarbonIntensityAPIHandler errorBody
              [("error", JObject [("code", JString "400 Bad Request");
                                  ("message", JString "Please enter a valid start datetime")])]%string
              [("code", JString "400 Bad Request");
               ("message", JString "Please enter a valid start datetime")]%string
              "400 Bad Request" "Please enter a valid start datetime"
              noon noon noon noon 48 Hour
              (fun url => eq_refl) eq_refl eq_refl eq_refl eq_refl eq_refl)
    as (Hl & _ & _ & Hp & _).
  split.
  - exact (Forall_inv (Forall_inv_tail Hl)).
  - apply Hp. split; vm_compute; discriminate.
Defined.

(** An envelope without entries. *)
Lemma empty_data_is_an_empty_list_or_an_error_witness :
  result (GetIntensityForDay refParse refDate (serve emptyData)
            NewCarbonIntensityAPIHandler noon) = Ok []
  /\ result (GetCurrentIntensity refParse (serve emptyData) NewCarbonIntensityAPIHandler)
     = Err (UnexpectedEntries (raw emptyData))
  /\ result (GetStatistics refParse refFormat (serve emptyData)
               NewCarbonIntensityAPIHandler noon (after Hour noon))
     = Err (UnexpectedEntries (raw emptyData)).
Proof.
  destruct (empty_data_is_an_empty_list_or_an_error refParse refFormat refDate
              (serve emptyData) NewCarbonIntensityAPIHandler emptyData
              [("data", JArray [])]%string noon noon noon (after Hour noon) 1 Hour
              (fun url => eq_refl) eq_refl eq_refl) as (Hl & Hs & _ & _ & Hr).
  split; [exact (Forall_inv Hl) | split].
  - exact (Forall_inv (Forall_inv_tail Hs)).
  - destruct Hr as (_ & H & _); [reflexivity | vm_compute; discriminate | exact H].
Defined.

(** Two periods asked for as a day. *)
Lemma list_operations_return_every_entry_witness :
  exists entries,
    Forall2 (fun v e => intensityEntry refParse v = Ok (Some e))
      [settledPeriod; futurePeriod] entries
    /\ result (GetIntensityForDay refParse refDate (serve twoPeriods)
                 NewCarbonIntensityAPIHandler noon) = Ok entries.
Proof.
  destruct (list_operations_return_every_entry refParse refFormat refDate
              (serve twoPeriods) NewCarbonIntensityAPIHandler twoPeriods
              [("data", JArray [settledPeriod; futurePeriod])]%string
              [settledPeriod; futurePeriod] noon noon noon Hour
              (fun url => eq_refl) eq_refl eq_refl) as (Hi & _).
  destruct (Hi eq_refl) as (entries & Hall & Hl & _).
  exists entries. split; [exact Hall | exact (Forall_inv Hl)].
Defined.

(** The broken body: the one record kept is that of the first entry,
    and the entry after it is the one whose time does not parse. *)
Lemma decoded_records_are_a_prefix_of_data_witness :
  Forall2 (fun v e => intensityEntry refParse v = Ok (Some e))
    [settledPeriod]
    [ {| iFrom := noon; iTo := after (30 * Minute) noon;
         Forecast := 266; Actual := 263; iIndex := "moderate" |} ]
  /\ intensityEntry refParse brokenPeriod = Ok None.
Proof.
  destruct (decoded_records_are_a_prefix_of_data refParse
              {| ientries := [] |} {| sentries := [] |} brokenBody
              [("data", JArray [settledPeriod; brokenPeriod; futurePeriod])]%string
              [settledPeriod; brokenPeriod; futurePeriod] eq_refl eq_refl) as (Hi & _).
  destruct (Hi [ {| iFrom := noon; iTo := after (30 * Minute) noon;
                    Forecast := 266; Actual := 263; iIndex := "moderate" |} ] eq_refl)
    as (_ & Hall & Hnext).
  split; [exact Hall | exact (Hnext brokenPeriod eq_refl)].
Defined.

(** A period without its index, after a well-formed one. *)
Lemma faulty_entry_panics_witness :
  is_panic (intensityResponse_UnmarshalJSON refParse {| ientries := [] |} indexlessBody)
  = true.
Proof.
  destruct (faulty_entry_panics refParse {| ientries := [] |} {| sentries := [] |}
              indexlessBody [("data", JArray [settledPeriod; indexlessPeriod])]%string
              [settledPeriod] indexlessPeriod [] eq_refl eq_refl eq_refl) as (Hi & _).
  apply Hi; reflexivity.
Defined.


(** The last settlement period of a day and a week of statistics, asked
    of both snapshots. *)
Lemma snapshots_agree_on_checked_parameters_witness :
  mapM flattenIntensity
    (Earlier.GetIntensityForDayAndSettlementPeriod refParse refDate (serve onePeriod)
       NewCarbonIntensityAPIHandler noon 48)
  = GetIntensityForDayAndSettlementPeriod refParse refDate (serve onePeriod)
      NewCarbonIntensityAPIHandler noon 48
  /\ mapM flattenStatistics
       (Earlier.GetStatistics refParse refFormat (serve oneWeek)
          NewCarbonIntensityAPIHandler noon (after (7 * 24 * Hour) noon))
     = GetStatistics refParse refFormat (serve oneWeek)
         NewCarbonIntensityAPIHandler noon (after (7 * 24 * Hour) noon).
Proof.
  split.
  - destruct (snapshots_agree_on_checked_parameters refParse refFormat refDate
                (serve onePeriod) NewCarbonIntensityAPIHandler noon noon noon noon
                48 Hour) as (_ & _ & _ & _ & _ & Hp & _).
    apply Hp. split; vm_compute; discriminate.
  - destruct (snapshots_agree_on_checked_parameters refParse refFormat refDate
                (serve oneWeek) NewCarbonIntensityAPIHandler noon noon noon
                (after (7 * 24 * Hour) noon) 48 Hour) as (_ & _ & _ & _ & _ & _ & Hr).
    destruct Hr as (_ & H & _); [reflexivity | vm_compute; discriminate | exact H].
Defined.

(** A forecast of 266 gCO2/KWh is drawn with 27 characters. *)
Lemma bar_has_a_character_for_every_ten_witness :
  printLoop 27 "-" charRepSize 0 266 = Some (copies 27 "-")
  /\ 10 * (Z.of_nat (barLength 266) - 1) < 266 <= 10 * Z.of_nat (barLength 266).
Proof.
  destruct (bar_has_a_character_for_every_ten 27 "-" 266) as (Hloop & _ & Hbounds).
  - vm_compute; discriminate.
  - vm_compute. lia.
  - split; [exact Hloop | apply Hbounds; reflexivity].
Defined.

(** A settled period and a period still to come. *)
Lemma example_draws_two_lines_a_record_witness :
  drawRows refFormat 30
    [ {| iFrom := noon; iTo := after (30 * Minute) noon;
         Forecast := 266; Actual := 263; iIndex := "moderate" |};
      {| iFrom := after (30 * Minute) noon; iTo := after Hour noon;
         Forecast := 50; Actual := -1; iIndex := "low" |} ]
  = Some (rowText refFormat
            {| iFrom := noon; iTo := after (30 * Minute) noon;
               Forecast := 266; Actual := 263; iIndex := "moderate" |}
          ++ rowText refFormat
               {| iFrom := after (30 * Minute) noon; iTo := after Hour noon;
                  Forecast := 50; Actual := -1; iIndex := "low" |}
          ++ EmptyString)%string.
Proof.
  apply (example_draws_two_lines_a_record refFormat 30).
  - vm_compute. lia.
  - repeat constructor; vm_compute; try discriminate; lia.
Defined.

(** The fifth of March and noon of the twentieth of January. *)
Lemma unchecked_operations_ask_once_witness :
  requests (GetIntensityForDay refParse refDate (serve twoPeriods)
              NewCarbonIntensityAPIHandler (after (44 * 24 * Hour) noon))
  = ["https://api.carbonintensity.org.uk/intensity/date/2018-03-05"%string]
  /\ requests (GetIntensityForTimePeriod refParse refFormat (serve twoPeriods)
                 NewCarbonIntensityAPIHandler noon)
     = ["https://api.carbonintensity.org.uk/intensity/2018-01-20T12:00Z"%string]
  /\ requests (GetNext24HourIntensity refParse refFormat (serve twoPeriods)
                 NewCarbonIntensityAPIHandler noon)
     = ["https://api.carbonintensity.org.uk/intensity/2018-01-20T12:00Z/fw24h"%string].
Proof.
  destruct (unchecked_operations_ask_once refParse refFormat refDate (serve twoPeriods)
              NewCarbonIntensityAPIHandler (after (44 * 24 * Hour) noon) noon noon
              2018 3 5 eq_refl)
    as (Hday & _ & Hperiod & _ & Hnext & _).
  split; [exact Hday | split; [exact Hperiod | exact Hnext]].
Defined.
